(** * notation verify: the command-line workflow of [cmd/notation/verify.go]
      and the experimental-feature gate of [internal/experimental].

    The development embeds the two Go packages shallowly:
    - Go's [error] values with their dynamic type, message and [Unwrap] chain,
      so that [errors.As] and [fmt.Errorf] with [%w] can be run;
    - the terminal and the external collaborators as a trace of events in a
      small monad that also carries early [return err] and runtime panics;
    - the code of [verify.go] and [experimental.go], function by function. *)

From Stdlib Require Import ZArith Ascii String.
From stdpp Require Import base option list strings gmap.

Local Open Scope string_scope.

Set Warnings "-register-all".

(** ** Go runtime: errors and formatting *)
Module Go.

(** The dynamic type of an error value, as far as this program tells types
    apart: [*errors.errorString] (from [errors.New] and from [fmt.Errorf]
    without [%w]), [*fmt.wrapError] (from [fmt.Errorf] with one [%w]),
    [notation.ErrorVerificationFailed], and any other type, by name. *)
Inductive errorType : Type :=
  | errorString
  | wrapError
  | ErrorVerificationFailed
  | otherError (name : string).

(** A non-nil error: its dynamic type, what [Error()] returns and what
    [Unwrap()] returns (no error, one error, or several for
    [Unwrap() []error]).  A Go value of type [error] is an [option error],
    [None] being [nil]. *)
Inductive error : Type :=
  | MkError (dynType : errorType) (message : string) (causes : list error).

Definition dynType (e : error) : errorType :=
  match e with MkError t _ _ => t end.

Definition Error (e : error) : string :=
  match e with MkError _ m _ => m end.

Definition Unwrap (e : error) : list error :=
  match e with MkError _ _ cs => cs end.

Definition is_ErrorVerificationFailed (t : errorType) : bool :=
  match t with ErrorVerificationFailed => true | _ => false end.

(** [errors.As(err, &target)] for a target of type
    [notation.ErrorVerificationFailed]: the depth-first walk of the [Unwrap]
    tree that stops at the first error of that dynamic type. *)
Fixpoint errors_As_ErrorVerificationFailed (e : error) : bool :=
  match e with
  | MkError t _ cs =>
      is_ErrorVerificationFailed t
      || (fix any (l : list error) : bool :=
            match l with
            | [] => false
            | c :: l' => errors_As_ErrorVerificationFailed c || any l'
            end) cs
  end.

(** [errors.New(s)]. *)
Definition errors_New (s : string) : error := MkError errorString s [].

(** [fmt.Errorf(prefix + "%w", err)]: the message is the formatted text, in
    which [%w] prints [err.Error()], and [Unwrap] returns [err]. *)
Definition Errorf_w (prefix : string) (err : error) : error :=
  MkError wrapError (prefix +:+ Error err) [err].

(** [fmt.Errorf(prefix + "%s", s)]: no [%w], so the result is [errors.New]
    of the formatted text. *)
Definition Errorf_s (prefix : string) (s : string) : error :=
  errors_New (prefix +:+ s).

(** The line feed and the double quote. *)
Definition LF : string := String "010"%char EmptyString.
Definition DQ : string := String "034"%char EmptyString.

(** [fmt.Println(a, b)]: the operands separated by a space, then a newline. *)
Definition Sprintln2 (a b : string) : string := a +:+ " " +:+ b +:+ LF.

(** [fmt.Println(a)]. *)
Definition Sprintln1 (a : string) : string := a +:+ LF.

(** [strings.Join(elems, sep)]. *)
Fixpoint strings_Join (elems : list string) (sep : string) : string :=
  match elems with
  | [] => EmptyString
  | [x] => x
  | x :: rest => x +:+ sep +:+ strings_Join rest sep
  end.

End Go.

Export Go.

(** ** Types of the verification library that the command reads *)
Module notation.

(** [trustpolicy.VerificationLevel]: a name and the enforcement map from
    validation type to validation action (both string types). A Go map is
    [nil] or a map, and [reflect.DeepEqual] tells the two apart. *)
Record VerificationLevel : Type := {
  Name : string;
  Enforcement : option (gmap string string)
}.

#[global] Instance VerificationLevel_eq_dec : EqDecision VerificationLevel.
Proof. solve_decision. Defined.

(** [notation.ValidationResult]: the fields the command prints. *)
Record ValidationResult : Type := {
  Type_ : string;
  Action : string;
  Error_ : option error
}.

(** [notation.VerificationOutcome]: the fields the command reads.
    [VerificationLevel_] is a pointer and may be nil. [UserMetadata] is the
    pair returned by the method [outcome.UserMetadata()], which the library
    computes from the outcome's envelope content. The slices hold pointers;
    the library fills them with non-nil ones, and so does this model. *)
Record VerificationOutcome : Type := {
  VerificationLevel_ : option VerificationLevel;
  VerificationResults : list ValidationResult;
  UserMetadata : gmap string string * option error
}.

(** [notation.VerifyOptions]. *)
Record VerifyOptions : Type := {
  ArtifactReference : string;
  PluginConfig : gmap string string;
  MaxSignatureAttempts : Z;
  UserMetadata_ : gmap string string
}.

(** [reflect.DeepEqual] on two [*trustpolicy.VerificationLevel]: both nil,
    or both non-nil and pointing to deeply equal structs (equal names, and
    maps that are both nil or both non-nil with the same entries). *)
Definition DeepEqual (a b : option VerificationLevel) : bool :=
  bool_decide (a = b).

End notation.

Export notation.

(** ** Effects: the trace of a run *)
Module Effects.

(** Handles of the collaborators, declared outside the command's file and
    opaque to it: the command only passes them on. *)
Inductive Verifier : Type := verifier_handle (id : nat).
Inductive Repository : Type := repository_handle (id : nat).
Inductive SecureFlagOpts : Type := secure_flag_opts (id : nat).
Inductive LoggingFlagOpts : Type := logging_flag_opts (id : nat).

(** [inputType] of package main: remote registry or local OCI layout. *)
Inductive inputType : Type := inputTypeRegistry | inputTypeOCILayout.

(** What a run does to the outside, in order: writes to the two standard
    streams and calls to the collaborators. [Call_PrintMetadataMap m] is
    the call [ioutil.PrintMetadataMap(os.Stdout, m)], whose code is not
    part of the command's file. *)
Inductive event : Type :=
  | Stderr_write (text : string)
  | Stdout_write (text : string)
  | Call_PrintMetadataMap (metadata : gmap string string)
  | Call_NewFromConfig
  | Call_getRepository (t : inputType) (reference : string) (s : SecureFlagOpts)
  | Call_resolveReference (t : inputType) (reference : string) (r : Repository)
  | Call_Verify (v : Verifier) (r : Repository) (o : VerifyOptions).

(** How a Go function that returns [error] ends: it returns normally
    ([Val]), returns a non-nil error ([Err]), or panics. *)
Inductive res (A : Type) : Type :=
  | Val (a : A)
  | Err (e : error)
  | Panic (msg : string).
Arguments Val {A} a.
Arguments Err {A} e.
Arguments Panic {A} msg.

(** A computation: the events it emitted and how it ended. *)
Definition M (A : Type) : Type := list event * res A.

Definition ret {A} (a : A) : M A := ([], Val a).

Definition bind {A B} (m : M A) (k : A -> M B) : M B :=
  match m with
  | (t, Val a) => let '(t', r) := k a in ((t ++ t')%list, r)
  | (t, Err e) => (t, Err e)
  | (t, Panic s) => (t, Panic s)
  end.

Definition emit (ev : event) : M unit := ([ev], Val tt).
Definition fail {A} (e : error) : M A := ([], Err e).
Definition panic {A} (msg : string) : M A := ([], Panic msg).

(** [v, err := f(); if err != nil { return err }] for a pure [f]. *)
Definition try {A} (r : A + error) : M A :=
  match r with inl a => ret a | inr e => fail e end.

(** [return err] for an [err] that may be nil. *)
Definition return_error (err : option error) : M unit :=
  match err with Some e => fail e | None => ret tt end.

Declare Scope go_scope.
Delimit Scope go_scope with go.
Notation "x <- c ;; k" := (bind c (fun x => k))
  (at level 100, c at next level, right associativity) : go_scope.
Notation "c ;;; k" := (bind c (fun _ => k))
  (at level 100, right associativity) : go_scope.

(** [for _, x := range l { body(x) }]. *)
Fixpoint for_range {A} (l : list A) (body : A -> M unit) : M unit :=
  match l with
  | [] => ret tt
  | x :: l' => bind (body x) (fun _ => for_range l' body)
  end.

(** [l[0]], with Go's panic when the slice is empty. *)
Definition index0 {A} (l : list A) : M A :=
  match l with
  | x :: _ => ret x
  | [] => panic "runtime error: index out of range [0] with length 0"
  end.

Definition trace {A} (m : M A) : list event := fst m.
Definition outcome_of {A} (m : M A) : res A := snd m.

(** The process as the command sees it: its environment variables and
    whether writing the experimental warning to [os.Stderr] fails. *)
Record Process : Type := {
  environ : gmap string string;
  stderr_write_error : option error
}.

(** [os.Getenv]: the value, or the empty string when the variable is unset. *)
Definition os_Getenv (p : Process) (key : string) : string :=
  default EmptyString (environ p !! key).

End Effects.

Export Effects.
Local Open Scope go_scope.

(** ** Code that the two files call and do not hold *)

(** The pure helpers and constants that the two files take from elsewhere:
    - [Quote] is what the verb [%q] prints for a string ([strconv.Quote]);
    - [LevelSkip] is what [trustpolicy.LevelSkip] points to;
    - [ParseFlagMap] is [cmd.ParseFlagMap], and the two names are
      [cmd.PflagPluginConfig.Name] and [cmd.PflagUserMetadata.Name];
    - [resolveArtifactDigestReference] is the helper of package main. *)
Class Library : Type := {
  Quote : string -> string;
  LevelSkip : VerificationLevel;
  ParseFlagMap : list string -> string -> gmap string string + error;
  PflagPluginConfig_Name : string;
  PflagUserMetadata_Name : string;
  resolveArtifactDigestReference : string -> string -> string
}.

(** What the collaborators answer in one run:
    - [NewFromConfig] is the result of [verifier.NewFromConfig()];
    - [getRepository] and [Verify] are the functions of the same names;
    - [resolveReference] gives the references with which it calls the
      callback it is handed (once for a tag, per the specification; any
      number here), and the resolved reference or the error. *)
Record World : Type := {
  process : Process;
  NewFromConfig : Verifier + error;
  getRepository : inputType -> string -> SecureFlagOpts -> Repository + error;
  resolveReference :
    inputType -> string -> Repository -> list string * (string + error);
  Verify :
    Verifier -> Repository -> VerifyOptions ->
    list VerificationOutcome * option error
}.

(** ** The command framework *)
Module cobra.

(** What a callback sees of the [*cobra.Command] it is handed: the command
    path and which flags the command line set ([cmd.Flags().Changed]). *)
Record Command : Type := {
  CommandPath : string;
  Flags_Changed : string -> bool
}.

(** A flag bound to a variable of the state [St]: its name and how a value
    given on the command line is stored ([None]: the value does not parse). *)
Record FlagDef (St : Type) : Type := {
  flag_name : string;
  flag_set : string -> St -> option St
}.
Arguments flag_name {St} f.
Arguments flag_set {St} f v st.

(** [strconv.ParseBool], which reads the value of a boolean flag. *)
Definition ParseBool (v : string) : option bool :=
  if bool_decide (v ∈ ["1"; "t"; "T"; "TRUE"; "true"; "True"]) then Some true
  else if bool_decide (v ∈ ["0"; "f"; "F"; "FALSE"; "false"; "False"])
       then Some false
       else None.

Definition BoolVar {St} (name : string) (store : bool -> St -> St)
  : FlagDef St :=
  {| flag_name := name;
     flag_set v st := match ParseBool v with
                      | Some b => Some (store b st)
                      | None => None
                      end |}.

Definition StringVar {St} (name : string) (store : string -> St -> St)
  : FlagDef St :=
  {| flag_name := name; flag_set v st := Some (store v st) |}.

(** A string-array flag whose default is nil: every occurrence appends. *)
Definition StringArrayVar {St} (name : string)
    (append : string -> St -> St) : FlagDef St :=
  {| flag_name := name; flag_set v st := Some (append v st) |}.

(** A command as [verifyCommand] configures it: the three callbacks (each
    closes over the options, here the state [St]), the flags, the groups
    marked with [MarkFlagsRequiredTogether] and the flags marked hidden. *)
Record CommandSpec (St : Type) : Type := {
  Use : string;
  Args : Command -> list string -> St -> M St;
  PreRunE : Command -> list string -> St -> M St;
  RunE : Command -> list string -> St -> M St;
  flags : list (FlagDef St);
  requiredTogether : list (list string);
  hiddenFlags : list string
}.
Arguments Use {St} c.
Arguments Args {St} c.
Arguments PreRunE {St} c.
Arguments RunE {St} c.
Arguments flags {St} c.
Arguments requiredTogether {St} c.
Arguments hiddenFlags {St} c.

Definition lookupFlag {St} (defs : list (FlagDef St)) (name : string)
  : option (FlagDef St) :=
  List.find (fun d => bool_decide (flag_name d = name)) defs.

(** Parsing the flag occurrences [(name, value)] of a command line, in
    order: each stores its value and marks its flag as changed. A boolean
    flag given without a value arrives here with the value ["true"]. *)
Fixpoint parseFlags {St} (defs : list (FlagDef St))
    (occs : list (string * string)) (st : St) (changed : list string)
  : (St * list string) + error :=
  match occs with
  | [] => inl (st, changed)
  | (name, v) :: occs' =>
      match lookupFlag defs name with
      | None => inr (errors_New ("unknown flag: --" +:+ name))
      | Some d =>
          match flag_set d v st with
          | None =>
              inr (errors_New ("invalid argument for --" +:+ name))
          | Some st' => parseFlags defs occs' st' (name :: changed)
          end
      end
  end.

(** A group of flags required together is violated when some but not all
    of its flags were set. *)
Definition groupViolated (changed : string -> bool) (group : list string)
  : bool :=
  let set := List.filter changed group in
  negb (Nat.eqb (length set) 0)
  && negb (Nat.eqb (length set) (length group)).

(** Modelled from the spec: cobra's check of the groups registered with
    [MarkFlagsRequiredTogether] (cobra is third-party code, absent from
    the source files): flags required together are rejected at the
    boundary when one is given without the other. *)
Definition validateFlagGroups (cmd : Command) (groups : list (list string))
  : option error :=
  match List.find (groupViolated (Flags_Changed cmd)) groups with
  | Some g =>
      Some (errors_New
              ("if any flags in the group [" +:+ strings_Join g " "
               +:+ "] are set they must all be set"))
  | None => None
  end.

(** Modelled from the spec: cobra's run of one command (third-party code,
    absent from the source files), in cobra's documented order: parse the flags,
    validate the positional arguments with [Args], run [PreRunE], check
    the flag groups, and only then run [RunE]. The first error ends the
    run. *)
Definition execute {St} (c : CommandSpec St) (path : string) (st : St)
    (occs : list (string * string)) (args : list string) : M St :=
  p <- try (parseFlags (flags c) occs st []) ;;
  let cmd := {| CommandPath := path;
                Flags_Changed := fun n => bool_decide (n ∈ snd p) |} in
  st1 <- Args c cmd args (fst p) ;;
  st2 <- PreRunE c cmd args st1 ;;
  return_error (validateFlagGroups cmd (requiredTogether c)) ;;;
  RunE c cmd args st2.

End cobra.

(** ** [internal/experimental/experimental.go] *)
Module experimental.

Definition envName : string := "NOTATION_EXPERIMENTAL".
Definition enabled : string := "1".

Section experimental.
Context `{Library} (P : Process).

(** [IsDisabled] determines whether an experimental feature is disabled. *)
Definition IsDisabled : bool :=
  bool_decide (os_Getenv P envName ≠ enabled).

(** [warn] prints a warning message for using the experimental feature and
    returns the error of the write. *)
Definition warn : M unit :=
  emit (Stderr_write
          ("Warning: This feature is experimental and may not be fully tested or completed and may be deprecated. Report any issues to "
           +:+ DQ +:+ "https://github/notaryproject/notation" +:+ DQ +:+ LF)) ;;;
  return_error (stderr_write_error P).

(** [CheckAndWarn] checks whether a feature can be used. *)
Definition CheckAndWarn (doCheck : unit -> string * bool) : M unit :=
  let '(feature, isExperimental) := doCheck tt in
  if isExperimental then
    if IsDisabled then
      (* feature is experimental and disabled *)
      fail (errors_New
              (feature
               +:+ " is experimental and not enabled by default. To use, please set "
               +:+ envName +:+ "=" +:+ enabled +:+ " environment variable"))
    else warn
  else ret tt.

(** [CheckCommandAndWarn] checks whether an experimental command can be run. *)
Definition CheckCommandAndWarn (cmd : cobra.Command) (_ : list string)
  : M unit :=
  CheckAndWarn (fun _ => (Quote (cobra.CommandPath cmd), true)).

(** The loop of [CheckFlagsAndWarn]: the changed flags, each with ["--"]. *)
Definition changedFlags (cmd : cobra.Command) (flags : list string)
  : list string :=
  List.map (fun flag => "--" +:+ flag)
           (List.filter (cobra.Flags_Changed cmd) flags).

(** [CheckFlagsAndWarn] checks whether experimental flags can be run. *)
Definition CheckFlagsAndWarn (cmd : cobra.Command) (flags : list string)
  : M unit :=
  CheckAndWarn (fun _ =>
    let changedFlags := changedFlags cmd flags in
    if Nat.eqb (length changedFlags) 0 then
      (* no experimental flag used *)
      (EmptyString, false)
    else
      ("flag(s) " +:+ strings_Join changedFlags "," +:+ " in "
       +:+ Quote (cobra.CommandPath cmd), true)).

(** [HideFlags] hides experimental flags when NOTATION_EXPERIMENTAL is
    disabled: the flags it marks hidden. *)
Definition HideFlags (flags : list string) : list string :=
  if IsDisabled then flags else [].

End experimental.
End experimental.

(** ** [cmd/notation/verify.go] *)
Module main.

(** [math.MaxInt64], as Go defines it: [1<<63 - 1]. *)
Definition math_MaxInt64 : Z := Z.shiftl 1 63 - 1.

Definition maxSignatureAttempts : Z := math_MaxInt64.

Record verifyOpts : Type := {
  LoggingFlagOpts_ : LoggingFlagOpts;
  SecureFlagOpts_ : SecureFlagOpts;
  reference : string;
  pluginConfig : list string;
  userMetadata : list string;
  ociLayout : bool;
  trustPolicyScope : string;
  inputType_ : inputType
}.

Definition set_reference (v : string) (o : verifyOpts) : verifyOpts :=
  {| LoggingFlagOpts_ := LoggingFlagOpts_ o; SecureFlagOpts_ := SecureFlagOpts_ o;
     reference := v; pluginConfig := pluginConfig o;
     userMetadata := userMetadata o; ociLayout := ociLayout o;
     trustPolicyScope := trustPolicyScope o; inputType_ := inputType_ o |}.

Definition append_pluginConfig (v : string) (o : verifyOpts) : verifyOpts :=
  {| LoggingFlagOpts_ := LoggingFlagOpts_ o; SecureFlagOpts_ := SecureFlagOpts_ o;
     reference := reference o; pluginConfig := (pluginConfig o ++ [v])%list;
     userMetadata := userMetadata o; ociLayout := ociLayout o;
     trustPolicyScope := trustPolicyScope o; inputType_ := inputType_ o |}.

Definition append_userMetadata (v : string) (o : verifyOpts) : verifyOpts :=
  {| LoggingFlagOpts_ := LoggingFlagOpts_ o; SecureFlagOpts_ := SecureFlagOpts_ o;
     reference := reference o; pluginConfig := pluginConfig o;
     userMetadata := (userMetadata o ++ [v])%list; ociLayout := ociLayout o;
     trustPolicyScope := trustPolicyScope o; inputType_ := inputType_ o |}.

Definition set_ociLayout (v : bool) (o : verifyOpts) : verifyOpts :=
  {| LoggingFlagOpts_ := LoggingFlagOpts_ o; SecureFlagOpts_ := SecureFlagOpts_ o;
     reference := reference o; pluginConfig := pluginConfig o;
     userMetadata := userMetadata o; ociLayout := v;
     trustPolicyScope := trustPolicyScope o; inputType_ := inputType_ o |}.

Definition set_trustPolicyScope (v : string) (o : verifyOpts) : verifyOpts :=
  {| LoggingFlagOpts_ := LoggingFlagOpts_ o; SecureFlagOpts_ := SecureFlagOpts_ o;
     reference := reference o; pluginConfig := pluginConfig o;
     userMetadata := userMetadata o; ociLayout := ociLayout o;
     trustPolicyScope := v; inputType_ := inputType_ o |}.

Definition set_inputType (v : inputType) (o : verifyOpts) : verifyOpts :=
  {| LoggingFlagOpts_ := LoggingFlagOpts_ o; SecureFlagOpts_ := SecureFlagOpts_ o;
     reference := reference o; pluginConfig := pluginConfig o;
     userMetadata := userMetadata o; ociLayout := ociLayout o;
     trustPolicyScope := trustPolicyScope o; inputType_ := v |}.

(** [&verifyOpts{inputType: inputTypeRegistry}]: every other field zero. *)
Definition default_verifyOpts : verifyOpts :=
  {| LoggingFlagOpts_ := logging_flag_opts 0;
     SecureFlagOpts_ := secure_flag_opts 0;
     reference := EmptyString; pluginConfig := []; userMetadata := [];
     ociLayout := false; trustPolicyScope := EmptyString;
     inputType_ := inputTypeRegistry (* remote registry by default *) |}.

Section verify.
Context `{Library} (W : World).

Definition checkVerificationFailure (outcomes : list VerificationOutcome)
    (printOut : string) (err : option error) : option error :=
  (* write out on failure *)
  if bool_decide (err ≠ None) || Nat.eqb (length outcomes) 0 then
    match err with
    | Some e =>
        if negb (errors_As_ErrorVerificationFailed e) then
          Some (Errorf_w "signature verification failed: " e)
        else
          Some (Errorf_s
                  "signature verification failed for all the signatures associated with "
                  printOut)
    | None =>
        Some (Errorf_s
                "signature verification failed for all the signatures associated with "
                printOut)
    end
  else None.

Definition printMetadataIfPresent (outcome : VerificationOutcome) : M unit :=
  (* the error of UserMetadata() is ignored *)
  let metadata := fst (UserMetadata outcome) in
  if Nat.ltb 0 (size metadata) then
    emit (Stdout_write
            (Sprintln1
               (LF +:+ "The artifact was signed with the following user metadata."))) ;;;
    emit (Call_PrintMetadataMap metadata)
  else ret tt.

(** The warning of one failed result:
    ["Warning: %v was set to %q and failed with error: %v\n"]. *)
Definition warning_line (result : ValidationResult) (e : error) : string :=
  "Warning: " +:+ Type_ result +:+ " was set to " +:+ Quote (Action result)
  +:+ " and failed with error: " +:+ Error e +:+ LF.

Definition reportVerificationSuccess (outcomes : list VerificationOutcome)
    (printout : string) : M unit :=
  (* write out on success *)
  outcome <- index0 outcomes ;;
  (* print out warning for any failed result with logged verification action *)
  for_range (VerificationResults outcome) (fun result =>
    match Error_ result with
    | Some e => emit (Stderr_write (warning_line result e))
    | None => ret tt
    end) ;;;
  if DeepEqual (VerificationLevel_ outcome) (Some LevelSkip) then
    emit (Stdout_write
            (Sprintln2
               "Trust policy is configured to skip signature verification for"
               printout))
  else
    emit (Stdout_write
            (Sprintln2 "Successfully verified signature for" printout)) ;;;
    printMetadataIfPresent outcome.

(** The warning of the callback that [runVerify] hands to
    [resolveReference]. *)
Definition tag_warning_text (ref : string) : string :=
  "Warning: Always verify the artifact using digest(@sha256:...) rather than a tag(:"
  +:+ ref
  +:+ ") because resolved digest may not point to the same signed artifact, as tags are mutable."
  +:+ LF.

Definition tag_warning (ref : string) : M unit :=
  emit (Stderr_write (tag_warning_text ref)).

(** [runVerify]. The logger context [ctx] only carries the log level to
    the collaborators and is left out. *)
Definition runVerify (opts : verifyOpts) : M unit :=
  (* initialize *)
  emit Call_NewFromConfig ;;;
  verifier <- try (NewFromConfig W) ;;
  (* set up verification plugin config. *)
  configs <- try (ParseFlagMap (pluginConfig opts) PflagPluginConfig_Name) ;;
  (* set up user metadata *)
  userMetadata <- try (ParseFlagMap (userMetadata opts) PflagUserMetadata_Name) ;;
  (* core verify process *)
  let reference := reference opts in
  emit (Call_getRepository (inputType_ opts) reference (SecureFlagOpts_ opts)) ;;;
  sigRepo <- try (getRepository W (inputType_ opts) reference
                                (SecureFlagOpts_ opts)) ;;
  (* resolve the given reference and set the digest *)
  emit (Call_resolveReference (inputType_ opts) reference sigRepo) ;;;
  let resolved := resolveReference W (inputType_ opts) reference sigRepo in
  for_range (fst resolved) tag_warning ;;;
  resolvedRef <- try (snd resolved) ;;
  let intendedRef :=
    resolveArtifactDigestReference resolvedRef (trustPolicyScope opts) in
  let verifyOpts :=
    {| ArtifactReference := intendedRef;
       PluginConfig := configs;
       MaxSignatureAttempts := maxSignatureAttempts;
       UserMetadata_ := userMetadata |} in
  emit (Call_Verify verifier sigRepo verifyOpts) ;;;
  let '(outcomes, err) := Verify W verifier sigRepo verifyOpts in
  let err := checkVerificationFailure outcomes resolvedRef err in
  match err with
  | Some e => fail e
  | None =>
      reportVerificationSuccess outcomes resolvedRef ;;;
      ret tt
  end.

(** [verifyCommand]: the configured command and the options it closes
    over. The flags that [LoggingFlagOpts.ApplyFlags] and
    [SecureFlagOpts.ApplyFlags] register write only into those two embedded
    structs, which the model takes as already set in the options. *)
Definition verifyCommand (opts : option verifyOpts)
  : cobra.CommandSpec verifyOpts * verifyOpts :=
  let opts := match opts with
              | None => default_verifyOpts
              | Some o => o
              end in
  ({| cobra.Use := "verify [reference]";
      cobra.Args := fun cmd args opts =>
        match args with
        | [] => fail (errors_New "missing reference")
        | a0 :: _ => ret (set_reference a0 opts)
        end;
      cobra.PreRunE := fun cmd args opts =>
        let opts := if ociLayout opts
                    then set_inputType inputTypeOCILayout opts
                    else opts in
        experimental.CheckFlagsAndWarn (process W) cmd ["oci-layout"; "scope"] ;;;
        ret opts;
      cobra.RunE := fun cmd args opts => runVerify opts ;;; ret opts;
      cobra.flags :=
        [ cobra.StringArrayVar "plugin-config" append_pluginConfig;
          cobra.StringArrayVar PflagUserMetadata_Name append_userMetadata;
          cobra.BoolVar "oci-layout" set_ociLayout;
          cobra.StringVar "scope" set_trustPolicyScope ];
      cobra.requiredTogether := [["oci-layout"; "scope"]];
      cobra.hiddenFlags :=
        experimental.HideFlags (process W) ["oci-layout"; "scope"] |},
   opts).

End verify.
End main.

Export main.

(** ** A sample library and sample runs *)
Module Sample.

(** [strings.Cut(s, sep)] for a one-character separator: the text before
    and after the first [sep], or [None] when [s] has none. *)
Fixpoint strings_Cut (s : string) (sep : ascii) : option (string * string) :=
  match s with
  | EmptyString => None
  | String c s' =>
      if bool_decide (c = sep) then Some (EmptyString, s')
      else match strings_Cut s' sep with
           | Some (before, after) => Some (String c before, after)
           | None => None
           end
  end.

(** Modelled from the spec: [cmd.ParseFlagMap] of [internal/cmd], which is
    absent from the source files: the entries are [key=value] pairs, and a
    malformed one, such as an entry lacking [=], is a parse error. *)
Fixpoint ParseFlagMap_from (m : gmap string string) (c : list string)
    (flagName : string) : gmap string string + error :=
  match c with
  | [] => inl m
  | entry :: c' =>
      match strings_Cut entry "="%char with
      | None =>
          inr (errors_New ("could not parse flag " +:+ flagName
                           +:+ ": key-value pair requires = as separator"))
      | Some (key, val) => ParseFlagMap_from (<[key := val]> m) c' flagName
      end
  end.

(** Modelled from the spec: [resolveArtifactDigestReference] of package
    main, which is absent from the source files: with a trust-policy
    scope, the intended reference is the resolved digest tagged with the
    scope. *)
Definition resolveArtifactDigestReference_model (reference policyScope : string)
  : string :=
  if bool_decide (policyScope ≠ EmptyString) then
    match strings_Cut reference "@"%char with
    | Some (_, digest) => policyScope +:+ "@" +:+ digest
    | None => reference
    end
  else reference.

(** The level [skip] of the verification library: every validation type is
    mapped to the action [skip]. *)
Definition LevelSkip_model : VerificationLevel :=
  {| Name := "skip";
     Enforcement :=
       Some (<["integrity" := "skip"]>
             (<["authenticity" := "skip"]>
              (<["authenticTimestamp" := "skip"]>
               (<["expiry" := "skip"]>
                (<["revocation" := "skip"]> ∅))))) |}.

Definition LevelStrict_model : VerificationLevel :=
  {| Name := "strict";
     Enforcement :=
       Some (<["integrity" := "enforce"]>
             (<["authenticity" := "enforce"]>
              (<["authenticTimestamp" := "enforce"]>
               (<["expiry" := "enforce"]>
                (<["revocation" := "enforce"]> ∅))))) |}.

(** [%q] on a string that needs no escape: the string between quotes. *)
Definition Quote_plain (s : string) : string := DQ +:+ s +:+ DQ.

Definition library : Library :=
  {| Quote := Quote_plain;
     LevelSkip := LevelSkip_model;
     ParseFlagMap := ParseFlagMap_from ∅;
     PflagPluginConfig_Name := "plugin-config";
     PflagUserMetadata_Name := "user-metadata";
     resolveArtifactDigestReference := resolveArtifactDigestReference_model |}.

Definition process_with (v : option string) : Process :=
  {| environ := match v with
                | Some s => {[ experimental.envName := s ]}
                | None => ∅
                end;
     stderr_write_error := None |}.

Definition v1 : Verifier := verifier_handle 1.
Definition repo1 : Repository := repository_handle 1.

Definition digest_ref : string := "localhost:5000/net-monitor@sha256:073b".

(** A result that failed under the action [log]. *)
Definition logged_result : ValidationResult :=
  {| Type_ := "expiry"; Action := "log";
     Error_ := Some (errors_New "certificate expired") |}.

Definition passed_result : ValidationResult :=
  {| Type_ := "integrity"; Action := "enforce"; Error_ := None |}.

Definition metadata : gmap string string := {[ "io.wabbit-networks.buildId" := "123" ]}.

Definition outcome_ok : VerificationOutcome :=
  {| VerificationLevel_ := Some LevelStrict_model;
     VerificationResults := [passed_result; logged_result];
     UserMetadata := (metadata, None) |}.

Definition outcome_plain : VerificationOutcome :=
  {| VerificationLevel_ := Some LevelStrict_model;
     VerificationResults := [passed_result];
     UserMetadata := (∅, None) |}.

Definition outcome_skip : VerificationOutcome :=
  {| VerificationLevel_ := Some LevelSkip_model;
     VerificationResults := [logged_result];
     UserMetadata := (metadata, None) |}.

(** A world in which every collaborator succeeds: the reference is a
    digest, and the verifier answers [outcomes] and [err]. *)
Definition world (env : option string) (init : Verifier + error)
    (outcomes : list VerificationOutcome) (err : option error) : World :=
  {| process := process_with env;
     NewFromConfig := init;
     getRepository := fun _ _ _ => inl repo1;
     resolveReference := fun _ reference _ => ([], inl reference);
     Verify := fun _ _ _ => (outcomes, err) |}.

Definition opts_with (plugin : list string) : verifyOpts :=
  set_reference digest_ref
    {| LoggingFlagOpts_ := logging_flag_opts 0;
       SecureFlagOpts_ := secure_flag_opts 0;
       reference := EmptyString; pluginConfig := plugin; userMetadata := [];
       ociLayout := false; trustPolicyScope := EmptyString;
       inputType_ := inputTypeRegistry |}.

Definition transport_error : error :=
  MkError (otherError "*net.OpError") "dial tcp: connection refused" [].

Definition all_failed_error : error :=
  MkError ErrorVerificationFailed "signature verification failed" [].

End Sample.

(** ** Vocabulary of the statements *)
Section vocabulary.
Context `{Library}.

(** The event that the loop of [reportVerificationSuccess] emits for one
    result: a warning on the standard error when the result has an error. *)
Definition result_warning (result : ValidationResult) : option event :=
  match Error_ result with
  | Some e => Some (Stderr_write (warning_line result e))
  | None => None
  end.

Definition failed_warnings (results : list ValidationResult) : list event :=
  omap result_warning results.

Definition has_error (result : ValidationResult) : bool :=
  bool_decide (Error_ result ≠ None).

Definition skip_line (printout : string) : event :=
  Stdout_write
    (Sprintln2 "Trust policy is configured to skip signature verification for"
               printout).

Definition success_line (printout : string) : event :=
  Stdout_write (Sprintln2 "Successfully verified signature for" printout).

Definition metadata_header : event :=
  Stdout_write
    (Sprintln1 (LF +:+ "The artifact was signed with the following user metadata.")).

(** The metadata section of the output: the header and the table. *)
Definition metadata_section (m : gmap string string) : list event :=
  [metadata_header; Call_PrintMetadataMap m].

(** The maps handed to [ioutil.PrintMetadataMap], in order. *)
Definition metadata_tables (t : list event) : list (gmap string string) :=
  omap (fun ev => match ev with
                  | Call_PrintMetadataMap m => Some m
                  | _ => None
                  end) t.

(** The events that the report of the first outcome adds after its
    warnings. *)
Definition report_tail (o : VerificationOutcome) (printout : string)
  : list event :=
  if DeepEqual (VerificationLevel_ o) (Some LevelSkip) then [skip_line printout]
  else success_line printout ::
       (if Nat.ltb 0 (size (fst (UserMetadata o)))
        then metadata_section (fst (UserMetadata o)) else []).

(** The texts written to the standard output, in order. *)
Definition stdout_of (t : list event) : list string :=
  omap (fun ev => match ev with Stdout_write s => Some s | _ => None end) t.

(** The events on the standard error, in order. *)
Definition stderr_of (t : list event) : list event :=
  List.filter (fun ev => match ev with Stderr_write _ => true | _ => false end) t.

(** The calls to the verifier, in order. *)
Definition verify_calls (t : list event)
  : list (Verifier * Repository * VerifyOptions) :=
  omap (fun ev => match ev with
                  | Call_Verify v r o => Some (v, r, o)
                  | _ => None
                  end) t.

(** A call to a collaborator that obtains a repository handle, resolves a
    reference or verifies. *)
Definition is_network_call (ev : event) : bool :=
  match ev with
  | Call_getRepository _ _ _ | Call_resolveReference _ _ _
  | Call_Verify _ _ _ => true
  | _ => false
  end.

Definition is_collaborator_call (ev : event) : bool :=
  match ev with
  | Call_NewFromConfig | Call_getRepository _ _ _
  | Call_resolveReference _ _ _ | Call_Verify _ _ _ => true
  | _ => false
  end.

(** The world [W] in which the verifier answers [outcomes] and [err]. *)
Definition with_Verify (W : World) (outcomes : list VerificationOutcome)
    (err : option error) : World :=
  {| process := process W;
     NewFromConfig := NewFromConfig W;
     getRepository := getRepository W;
     resolveReference := resolveReference W;
     Verify := fun _ _ _ => (outcomes, err) |}.

(** The generic failure of [checkVerificationFailure]. *)
Definition all_signatures_failed (printOut : string) : error :=
  errors_New
    ("signature verification failed for all the signatures associated with "
     +:+ printOut).

(** The warnings of the callback, one for each reference it is called
    with. *)
Definition tag_warnings (tags : list string) : list event :=
  List.map (fun ref => Stderr_write (tag_warning_text ref)) tags.

Definition is_stderr (ev : event) : bool :=
  match ev with Stderr_write _ => true | _ => false end.

(** The options that [runVerify] hands to the verifier. *)
Definition options_for (opts : verifyOpts) (configs um : gmap string string)
    (resolvedRef : string) : VerifyOptions :=
  {| ArtifactReference :=
       resolveArtifactDigestReference resolvedRef (trustPolicyScope opts);
     PluginConfig := configs;
     MaxSignatureAttempts := maxSignatureAttempts;
     UserMetadata_ := um |}.

(** What [runVerify] has done when it has the resolved reference. *)
Definition calls_before_Verify (opts : verifyOpts) (repo : Repository)
    (tags : list string) : list event :=
  ([Call_NewFromConfig;
    Call_getRepository (inputType_ opts) (reference opts) (SecureFlagOpts_ opts);
    Call_resolveReference (inputType_ opts) (reference opts) repo]
   ++ tag_warnings tags)%list.

(** Lines 132 to 137 of [runVerify]: the classification of the verifier's
    answer and the report. *)
Definition classify_and_report (outcomes : list VerificationOutcome)
    (resolvedRef : string) (err : option error) : M unit :=
  match checkVerificationFailure outcomes resolvedRef err with
  | Some e => fail e
  | None => reportVerificationSuccess outcomes resolvedRef ;;; ret tt
  end.

(** The ways a run of [runVerify] goes: it stops at the first step that
    fails, or it reaches the verifier and classifies its answer. *)
Inductive runs (W : World) (opts : verifyOpts) : M unit -> Prop :=
  | fails_NewFromConfig e :
      NewFromConfig W = inr e ->
      runs W opts ([Call_NewFromConfig], Err e)
  | fails_pluginConfig v e :
      NewFromConfig W = inl v ->
      ParseFlagMap (pluginConfig opts) PflagPluginConfig_Name = inr e ->
      runs W opts ([Call_NewFromConfig], Err e)
  | fails_userMetadata v configs e :
      NewFromConfig W = inl v ->
      ParseFlagMap (pluginConfig opts) PflagPluginConfig_Name = inl configs ->
      ParseFlagMap (userMetadata opts) PflagUserMetadata_Name = inr e ->
      runs W opts ([Call_NewFromConfig], Err e)
  | fails_getRepository v configs um e :
      NewFromConfig W = inl v ->
      ParseFlagMap (pluginConfig opts) PflagPluginConfig_Name = inl configs ->
      ParseFlagMap (userMetadata opts) PflagUserMetadata_Name = inl um ->
      getRepository W (inputType_ opts) (reference opts) (SecureFlagOpts_ opts)
      = inr e ->
      runs W opts
        ([Call_NewFromConfig;
          Call_getRepository (inputType_ opts) (reference opts)
                             (SecureFlagOpts_ opts)], Err e)
  | fails_resolveReference v configs um repo tags e :
      NewFromConfig W = inl v ->
      ParseFlagMap (pluginConfig opts) PflagPluginConfig_Name = inl configs ->
      ParseFlagMap (userMetadata opts) PflagUserMetadata_Name = inl um ->
      getRepository W (inputType_ opts) (reference opts) (SecureFlagOpts_ opts)
      = inl repo ->
      resolveReference W (inputType_ opts) (reference opts) repo
      = (tags, inr e) ->
      runs W opts (calls_before_Verify opts repo tags, Err e)
  | reaches_Verify v configs um repo tags resolvedRef outcomes err :
      NewFromConfig W = inl v ->
      ParseFlagMap (pluginConfig opts) PflagPluginConfig_Name = inl configs ->
      ParseFlagMap (userMetadata opts) PflagUserMetadata_Name = inl um ->
      getRepository W (inputType_ opts) (reference opts) (SecureFlagOpts_ opts)
      = inl repo ->
      resolveReference W (inputType_ opts) (reference opts) repo
      = (tags, inl resolvedRef) ->
      Verify W v repo (options_for opts configs um resolvedRef)
      = (outcomes, err) ->
      runs W opts
        ((calls_before_Verify opts repo tags
          ++ Call_Verify v repo (options_for opts configs um resolvedRef)
             :: trace (classify_and_report outcomes resolvedRef err))%list,
         outcome_of (classify_and_report outcomes resolvedRef err)).

End vocabulary.

(** ** Further vocabulary: the calls of a run and the gate's messages *)
Section vocabulary_of_runs.
Context `{Library}.

(** The world [W] seen from another process. *)
Definition with_process (W : World) (P : Process) : World :=
  {| process := P;
     NewFromConfig := NewFromConfig W;
     getRepository := getRepository W;
     resolveReference := resolveReference W;
     Verify := Verify W |}.

(** The calls to the collaborators, in order. *)
Definition collaborator_calls (t : list event) : list event :=
  List.filter is_collaborator_call t.

(** The error of [CheckAndWarn] for a disabled experimental feature. *)
Definition experimental_error (feature : string) : error :=
  errors_New
    (feature
     +:+ " is experimental and not enabled by default. To use, please set NOTATION_EXPERIMENTAL=1 environment variable").

(** How [CheckFlagsAndWarn] names the changed flags of a command. *)
Definition flags_feature (cmd : cobra.Command) (flags : list string)
  : string :=
  "flag(s) " +:+ strings_Join (experimental.changedFlags cmd flags) ","
  +:+ " in " +:+ Quote (cobra.CommandPath cmd).

(** The fields of the options that [PreRunE] and the flags of the
    experimental group leave alone. *)
Definition same_request (a b : verifyOpts) : Prop :=
  LoggingFlagOpts_ a = LoggingFlagOpts_ b
  /\ SecureFlagOpts_ a = SecureFlagOpts_ b
  /\ reference a = reference b
  /\ pluginConfig a = pluginConfig b
  /\ userMetadata a = userMetadata b
  /\ ociLayout a = ociLayout b
  /\ trustPolicyScope a = trustPolicyScope b.

End vocabulary_of_runs.

(** Further sample inputs. *)
Module SampleRuns.
Import Sample.

Definition tag_ref : string := "localhost:5000/net-monitor:v1".

(** A command whose command line set the flags [changed]. *)
Definition cmd_with (changed : list string) : cobra.Command :=
  {| cobra.CommandPath := "notation verify";
     cobra.Flags_Changed := fun n => bool_decide (n ∈ changed) |}.

(** A world in which the reference is a tag: the callback is called once,
    with the tag, and the reference resolves to the digest. *)
Definition world_tag (outcomes : list VerificationOutcome)
    (err : option error) : World :=
  {| process := process_with None;
     NewFromConfig := inl v1;
     getRepository := fun _ _ _ => inl repo1;
     resolveReference := fun _ _ _ => (["v1"], inl digest_ref);
     Verify := fun _ _ _ => (outcomes, err) |}.

(** A world in which the registry cannot be reached. *)
Definition world_unreachable : World :=
  {| process := process_with None;
     NewFromConfig := inl v1;
     getRepository := fun _ _ _ => inr transport_error;
     resolveReference := fun _ reference _ => ([], inl reference);
     Verify := fun _ _ _ => ([], None) |}.

Definition opts_tag : verifyOpts := set_reference tag_ref (opts_with ["a=b"]).

Definition opts_metadata (um : list string) : verifyOpts :=
  List.fold_left (fun o v => append_userMetadata v o) um (opts_with ["a=b"]).

End SampleRuns.

(** ** Properties *)

(** *** The monad and the loops *)

Lemma for_range_omap {A} (g : A -> option event) (l : list A) :
  for_range l (fun x => match g x with
                        | Some ev => emit ev
                        | None => ret tt
                        end) = (omap g l, Val tt).
Proof.
  induction l as [|x l IH]; [reflexivity|].
  cbn [for_range omap list_omap]. rewrite IH.
  destruct (g x); reflexivity.
Qed.

Section report.
Context `{Library}.

Lemma report_loop (results : list ValidationResult) :
  for_range results (fun result =>
    match Error_ result with
    | Some e => emit (Stderr_write (warning_line result e))
    | None => ret tt
    end) = (failed_warnings results, Val tt).
Proof.
  induction results as [|r results IH]; [reflexivity|].
  unfold failed_warnings in *. cbn [for_range omap list_omap].
  rewrite IH. unfold result_warning.
  destruct (Error_ r); reflexivity.
Qed.

End report.

(** *** The report of a successful verification *)
Section report_facts.
Context `{Library}.

Lemma failed_warnings_stderr (results : list ValidationResult) (ev : event) :
  ev ∈ failed_warnings results -> exists s, ev = Stderr_write s.
Proof.
  unfold failed_warnings. rewrite list_elem_of_omap.
  intros (r & _ & Hr). unfold result_warning in Hr.
  destruct (Error_ r); inversion Hr. eauto.
Qed.

Lemma result_warning_Some (r : ValidationResult) (ev : event) :
  result_warning r = Some ev ->
  exists e, Error_ r = Some e /\ ev = Stderr_write (warning_line r e).
Proof.
  unfold result_warning. destruct (Error_ r) as [e|]; [|discriminate].
  intros [= <-]. eauto.
Qed.

Lemma result_warning_None (r : ValidationResult) :
  result_warning r = None -> Error_ r = None.
Proof. unfold result_warning. destruct (Error_ r); [discriminate|reflexivity]. Qed.

Ltac warnings_induction results :=
  let r := fresh "r" in
  let IH := fresh "IH" in
  let ev := fresh "ev" in
  let E := fresh "E" in
  induction results as [|r results IH]; [reflexivity|];
  unfold failed_warnings in *; cbn [omap list_omap List.filter];
  destruct (result_warning r) as [ev|] eqn:E;
  [apply result_warning_Some in E as (? & E & ->)
  |apply result_warning_None in E].

Lemma failed_warnings_stdout (results : list ValidationResult) :
  stdout_of (failed_warnings results) = [].
Proof. warnings_induction results; exact IH. Qed.

Lemma failed_warnings_tables (results : list ValidationResult) :
  metadata_tables (failed_warnings results) = [].
Proof. warnings_induction results; exact IH. Qed.

Lemma failed_warnings_stderr_of (results : list ValidationResult) :
  stderr_of (failed_warnings results) = failed_warnings results.
Proof.
  warnings_induction results; [|exact IH].
  cbn [stderr_of List.filter]. f_equal. exact IH.
Qed.

Lemma failed_warnings_length (results : list ValidationResult) :
  length (failed_warnings results) = length (List.filter has_error results).
Proof.
  warnings_induction results; unfold has_error at 1; rewrite E; cbn.
  - f_equal. exact IH.
  - exact IH.
Qed.

Lemma stdout_of_app (t1 t2 : list event) :
  stdout_of (t1 ++ t2) = (stdout_of t1 ++ stdout_of t2)%list.
Proof. apply omap_app. Qed.

Lemma metadata_tables_app (t1 t2 : list event) :
  metadata_tables (t1 ++ t2) = (metadata_tables t1 ++ metadata_tables t2)%list.
Proof. apply omap_app. Qed.

Lemma reportVerificationSuccess_cons (o : VerificationOutcome)
    (rest : list VerificationOutcome) (printout : string) :
  reportVerificationSuccess (o :: rest) printout
  = ((failed_warnings (VerificationResults o) ++ report_tail o printout)%list,
     Val tt).
Proof.
  unfold reportVerificationSuccess, report_tail, index0.
  unfold bind at 1. cbn [ret app].
  rewrite report_loop. unfold bind at 1.
  destruct (DeepEqual _ _); [reflexivity|].
  unfold printMetadataIfPresent.
  destruct (Nat.ltb 0 _); reflexivity.
Qed.

Lemma skip_line_ne_success (p q : string) : skip_line p <> success_line q.
Proof. unfold skip_line, success_line, Sprintln2. cbn. discriminate. Qed.

Lemma skip_line_ne_header (p : string) : skip_line p <> metadata_header.
Proof. unfold skip_line, metadata_header, Sprintln1, Sprintln2. cbn. discriminate. Qed.

Lemma success_line_ne_header (p : string) : success_line p <> metadata_header.
Proof. unfold success_line, metadata_header, Sprintln1, Sprintln2. cbn. discriminate. Qed.

Lemma not_in_warnings_stdout (results : list ValidationResult) (s : string) :
  Stdout_write s ∉ failed_warnings results.
Proof.
  intros Hin. apply failed_warnings_stderr in Hin as [s' Hs]. discriminate.
Qed.

(** C3. When the verification level of the first outcome is deeply equal
    to the level [skip], the report prints the warnings of the failed
    results and then the skip message, and nothing else: the skip message
    is the only text on the standard output, the success line and the
    metadata header are not printed, and the metadata table is not
    printed. *)
Theorem skip_level_reports_skip_only (o : VerificationOutcome)
    (rest : list VerificationOutcome) (printout : string) :
  DeepEqual (VerificationLevel_ o) (Some LevelSkip) = true ->
  let t := trace (reportVerificationSuccess (o :: rest) printout) in
  t = (failed_warnings (VerificationResults o) ++ [skip_line printout])%list
  /\ stdout_of t
     = [Sprintln2 "Trust policy is configured to skip signature verification for"
                  printout]
  /\ (success_line printout ∉ t)
  /\ (metadata_header ∉ t)
  /\ metadata_tables t = [].
Proof.
  intros Hskip t. subst t.
  rewrite reportVerificationSuccess_cons. unfold report_tail, trace.
  rewrite Hskip. cbn [fst].
  split; [reflexivity|].
  split; [rewrite stdout_of_app, failed_warnings_stdout; reflexivity|].
  split; [|split].
  - rewrite elem_of_app, list_elem_of_singleton.
    intros [Hin|Heq]; [exact (not_in_warnings_stdout _ _ Hin)|].
    exact (skip_line_ne_success _ _ (eq_sym Heq)).
  - rewrite elem_of_app, list_elem_of_singleton.
    intros [Hin|Heq]; [exact (not_in_warnings_stdout _ _ Hin)|].
    exact (skip_line_ne_header _ (eq_sym Heq)).
  - rewrite metadata_tables_app, failed_warnings_tables. reflexivity.
Qed.

(** C7. For a first outcome whose level is not [skip]: when its user
    metadata is not empty, the metadata section (the header and the table
    of exactly these key/value pairs) is printed right after the success
    line; when the metadata map is empty, the success line is the last
    thing printed and no metadata section is printed at all. *)
Theorem metadata_printed_after_success (o : VerificationOutcome)
    (rest : list VerificationOutcome) (printout : string) :
  DeepEqual (VerificationLevel_ o) (Some LevelSkip) = false ->
  let m := fst (UserMetadata o) in
  let t := trace (reportVerificationSuccess (o :: rest) printout) in
  (m <> ∅ ->
     t = (failed_warnings (VerificationResults o)
          ++ success_line printout :: metadata_section m)%list
     /\ metadata_tables t = [m])
  /\ (m = ∅ ->
     t = (failed_warnings (VerificationResults o) ++ [success_line printout])%list
     /\ metadata_tables t = []
     /\ (metadata_header ∉ t)).
Proof.
  intros Hlevel m t. subst t.
  rewrite reportVerificationSuccess_cons. unfold report_tail, trace.
  rewrite Hlevel. cbn [fst]. fold m.
  split.
  - intros Hne.
    assert (Hsize : Nat.ltb 0 (size m) = true).
    { apply Nat.ltb_lt. destruct (size m) eqn:Hs; [|lia].
      apply map_size_empty_iff in Hs. contradiction. }
    rewrite Hsize. split; [reflexivity|].
    rewrite metadata_tables_app, failed_warnings_tables. reflexivity.
  - intros Hempty. rewrite Hempty, map_size_empty. cbn [Nat.ltb Nat.leb].
    split; [reflexivity|]. split.
    + rewrite metadata_tables_app, failed_warnings_tables. reflexivity.
    + rewrite elem_of_app, list_elem_of_singleton.
      intros [Hin|Heq]; [exact (not_in_warnings_stdout _ _ Hin)|].
      exact (success_line_ne_header _ (eq_sym Heq)).
Qed.

End report_facts.

(** *** The run of [runVerify] *)
Section run_facts.
Context `{Library}.

Lemma for_range_tag_warning (tags : list string) :
  for_range tags tag_warning = (tag_warnings tags, Val tt).
Proof.
  induction tags as [|ref tags IH]; [reflexivity|].
  cbn [for_range]. rewrite IH. reflexivity.
Qed.

(** Every run of [runVerify] is one of the runs of [runs]. *)
Lemma runVerify_runs (W : World) (opts : verifyOpts) :
  runs W opts (runVerify W opts).
Proof.
  unfold runVerify.
  destruct (NewFromConfig W) as [v|e] eqn:Hinit;
    [|exact (fails_NewFromConfig W opts e Hinit)].
  destruct (ParseFlagMap (pluginConfig opts) PflagPluginConfig_Name)
    as [configs|e] eqn:Hplugin;
    [|exact (fails_pluginConfig W opts v e Hinit Hplugin)].
  destruct (ParseFlagMap (userMetadata opts) PflagUserMetadata_Name)
    as [um|e] eqn:Hmeta;
    [|exact (fails_userMetadata W opts v configs e Hinit Hplugin Hmeta)].
  destruct (getRepository W (inputType_ opts) (reference opts)
                          (SecureFlagOpts_ opts)) as [repo|e] eqn:Hrepo;
    [|exact (fails_getRepository W opts v configs um e Hinit Hplugin Hmeta Hrepo)].
  cbn [try bind ret emit app].
  rewrite for_range_tag_warning.
  destruct (resolveReference W (inputType_ opts) (reference opts) repo)
    as [tags [resolvedRef|e]] eqn:Hresolve; cbn [fst snd try bind ret fail app];
    [|rewrite app_nil_r;
      exact (fails_resolveReference W opts v configs um repo tags e
               Hinit Hplugin Hmeta Hrepo Hresolve)].
  fold (options_for opts configs um resolvedRef).
  destruct (Verify W v repo (options_for opts configs um resolvedRef))
    as [outcomes err] eqn:Hverify.
  pose proof (reaches_Verify W opts v configs um repo tags resolvedRef
                outcomes err Hinit Hplugin Hmeta Hrepo Hresolve Hverify) as Hrun.
  unfold classify_and_report in Hrun.
  destruct (checkVerificationFailure outcomes resolvedRef err) as [e|].
  - exact Hrun.
  - destruct (reportVerificationSuccess outcomes resolvedRef) as [t [[]|e|msg]];
      exact Hrun.
Qed.

End run_facts.

(** *** Classifying the verifier's answer *)
Section classify_facts.
Context `{Library}.

Lemma omap_stderr_nil {B} (f : event -> option B) (t : list event) :
  (forall s, f (Stderr_write s) = None) ->
  Forall (fun ev => is_stderr ev = true) t -> omap f t = [].
Proof.
  intros Hf Ht. induction Ht as [|ev t Hev _ IH]; [reflexivity|].
  destruct ev; try discriminate Hev.
  cbn [omap list_omap]. rewrite Hf. exact IH.
Qed.

Lemma tag_warnings_stderr (tags : list string) :
  Forall (fun ev => is_stderr ev = true) (tag_warnings tags).
Proof. induction tags; constructor; [reflexivity|assumption]. Qed.

Lemma failed_warnings_all_stderr (results : list ValidationResult) :
  Forall (fun ev => is_stderr ev = true) (failed_warnings results).
Proof.
  apply Forall_forall. intros ev Hin.
  apply failed_warnings_stderr in Hin as [s ->]. reflexivity.
Qed.

Lemma checkVerificationFailure_nil (printOut : string) (err : option error) :
  exists e, checkVerificationFailure [] printOut err = Some e.
Proof.
  unfold checkVerificationFailure. cbn [length Nat.eqb].
  rewrite orb_true_r.
  destruct err as [e|]; [destruct (negb _)|]; eauto.
Qed.

Lemma checkVerificationFailure_None (outcomes : list VerificationOutcome)
    (printOut : string) (err : option error) :
  checkVerificationFailure outcomes printOut err = None ->
  err = None /\ exists o rest, outcomes = o :: rest.
Proof.
  unfold checkVerificationFailure.
  destruct err as [e|].
  - rewrite bool_decide_true by discriminate. cbn [orb].
    destruct (negb _); discriminate.
  - destruct outcomes as [|o rest]; [discriminate|]. eauto.
Qed.

Lemma checkVerificationFailure_cons_nil (o : VerificationOutcome)
    (rest : list VerificationOutcome) (printOut : string) :
  checkVerificationFailure (o :: rest) printOut None = None.
Proof. reflexivity. Qed.

(** The two ways [runVerify] ends after the verifier's answer: with the
    error of [checkVerificationFailure] and nothing printed, or with the
    report of the first outcome. *)
Lemma classify_and_report_cases (outcomes : list VerificationOutcome)
    (resolvedRef : string) (err : option error) :
  (exists e, checkVerificationFailure outcomes resolvedRef err = Some e
             /\ classify_and_report outcomes resolvedRef err = ([], Err e))
  \/ (exists o rest, outcomes = o :: rest /\ err = None
      /\ classify_and_report outcomes resolvedRef err
         = ((failed_warnings (VerificationResults o)
             ++ report_tail o resolvedRef)%list, Val tt)).
Proof.
  unfold classify_and_report.
  destruct (checkVerificationFailure outcomes resolvedRef err) as [e|] eqn:Hc.
  - left. eauto.
  - right. apply checkVerificationFailure_None in Hc as (-> & o & rest & ->).
    exists o, rest. split; [reflexivity|]. split; [reflexivity|].
    rewrite reportVerificationSuccess_cons. cbn [bind ret].
    rewrite app_nil_r. reflexivity.
Qed.

Lemma report_tail_verify_calls (o : VerificationOutcome) (p : string) :
  verify_calls (report_tail o p) = [].
Proof.
  unfold report_tail. destruct (DeepEqual _ _); [reflexivity|].
  destruct (Nat.ltb _ _); reflexivity.
Qed.

Lemma report_tail_stderr_of (o : VerificationOutcome) (p : string) :
  stderr_of (report_tail o p) = [].
Proof.
  unfold report_tail. destruct (DeepEqual _ _); [reflexivity|].
  destruct (Nat.ltb _ _); reflexivity.
Qed.

Lemma classify_and_report_verify_calls (outcomes : list VerificationOutcome)
    (resolvedRef : string) (err : option error) :
  verify_calls (trace (classify_and_report outcomes resolvedRef err)) = [].
Proof.
  destruct (classify_and_report_cases outcomes resolvedRef err)
    as [(e & _ & ->)|(o & rest & _ & _ & ->)]; [reflexivity|].
  unfold trace, verify_calls. cbn [fst]. rewrite omap_app.
  rewrite (omap_stderr_nil _ _ (fun _ => eq_refl)
             (failed_warnings_all_stderr _)).
  apply report_tail_verify_calls.
Qed.

Lemma calls_before_Verify_verify_calls (opts : verifyOpts) (repo : Repository)
    (tags : list string) :
  verify_calls (calls_before_Verify opts repo tags) = [].
Proof.
  unfold calls_before_Verify, verify_calls. cbn [app omap list_omap].
  apply omap_stderr_nil; [reflexivity|apply tag_warnings_stderr].
Qed.

Lemma calls_before_Verify_stdout (opts : verifyOpts) (repo : Repository)
    (tags : list string) :
  stdout_of (calls_before_Verify opts repo tags) = [].
Proof.
  unfold calls_before_Verify, stdout_of. cbn [app omap list_omap].
  apply omap_stderr_nil; [reflexivity|apply tag_warnings_stderr].
Qed.

(** A run calls the verifier at most once, and with the options that
    [runVerify] builds. *)
Lemma runs_verify_calls (W : World) (opts : verifyOpts) (m : M unit) :
  runs W opts m ->
  verify_calls (trace m) = []
  \/ exists v configs um repo tags resolvedRef outcomes err,
       resolveReference W (inputType_ opts) (reference opts) repo
       = (tags, inl resolvedRef)
       /\ Verify W v repo (options_for opts configs um resolvedRef)
          = (outcomes, err)
       /\ verify_calls (trace m)
          = [(v, repo, options_for opts configs um resolvedRef)]
       /\ m = ((calls_before_Verify opts repo tags
                ++ Call_Verify v repo (options_for opts configs um resolvedRef)
                   :: trace (classify_and_report outcomes resolvedRef err))%list,
               outcome_of (classify_and_report outcomes resolvedRef err)).
Proof.
  intros Hrun.
  destruct Hrun as [e _|v e _ _|v configs e _ _ _|v configs um e _ _ _ _
                   |v configs um repo tags e _ _ _ _ _
                   |v configs um repo tags resolvedRef outcomes err
                      _ _ _ _ Hresolve Hverify];
    try (left; reflexivity).
  - left. apply calls_before_Verify_verify_calls.
  - right. exists v, configs, um, repo, tags, resolvedRef, outcomes, err.
    split; [exact Hresolve|]. split; [exact Hverify|]. split; [|reflexivity].
    unfold trace. cbn [fst]. unfold verify_calls at 1.
    rewrite omap_app. fold (verify_calls (calls_before_Verify opts repo tags)).
    rewrite calls_before_Verify_verify_calls. cbn [app omap list_omap].
    f_equal. apply classify_and_report_verify_calls.
Qed.

(** No run panics. *)
Lemma runs_no_panic (W : World) (opts : verifyOpts) (m : M unit) :
  runs W opts m -> outcome_of m = Val tt \/ exists e, outcome_of m = Err e.
Proof.
  intros Hrun.
  destruct Hrun as [e _|v e _ _|v configs e _ _ _|v configs um e _ _ _ _
                   |v configs um repo tags e _ _ _ _ _
                   |v configs um repo tags resolvedRef outcomes err
                      _ _ _ _ _ _];
    try (right; eexists; reflexivity).
  unfold outcome_of at 1 2. cbn [snd].
  destruct (classify_and_report_cases outcomes resolvedRef err)
    as [(e & _ & ->)|(o & rest & _ & _ & ->)]; [right|left]; eauto.
Qed.

End classify_facts.

(** *** The failure and success paths *)
Section workflow.
Context `{Library}.

Lemma runVerify_empty_outcomes (W : World) (opts : verifyOpts)
    (err : option error) :
  (exists e, outcome_of (runVerify (with_Verify W [] err) opts) = Err e)
  /\ stdout_of (trace (runVerify (with_Verify W [] err) opts)) = [].
Proof.
  pose proof (runVerify_runs (with_Verify W [] err) opts) as Hrun.
  destruct Hrun as [e _|v e _ _|v configs e _ _ _|v configs um e _ _ _ _
                   |v configs um repo tags e _ _ _ _ _
                   |v configs um repo tags resolvedRef outcomes err'
                      _ _ _ _ _ Hverify];
    try (split; [eexists; reflexivity|reflexivity]).
  - split; [eexists; reflexivity|]. apply calls_before_Verify_stdout.
  - cbn [Verify with_Verify] in Hverify. injection Hverify as <- <-.
    destruct (classify_and_report_cases [] resolvedRef err)
      as [(e & _ & ->)|(o & rest & Hnil & _)]; [|discriminate Hnil].
    split; [eexists; reflexivity|].
    unfold trace. cbn [fst]. rewrite stdout_of_app, calls_before_Verify_stdout.
    reflexivity.
Qed.

(** C1. An empty outcome list is reported as failure whatever the error of
    the verifier is: [checkVerificationFailure] returns a non-nil error
    (for a nil error of the verifier, the generic one), and a run of
    [runVerify] in which the verifier answers no outcome ends with an
    error. *)
Theorem empty_outcomes_reported_as_failure (W : World) (opts : verifyOpts)
    (printOut : string) (err : option error) :
  (exists e, checkVerificationFailure [] printOut err = Some e)
  /\ checkVerificationFailure [] printOut None
     = Some (all_signatures_failed printOut)
  /\ (exists e, outcome_of (runVerify (with_Verify W [] err) opts) = Err e).
Proof.
  split; [apply checkVerificationFailure_nil|].
  split; [reflexivity|].
  apply runVerify_empty_outcomes.
Qed.

(** C2. For a non-nil error [e] of the verifier, [checkVerificationFailure]
    returns a non-nil error [r]. When [errors.As] does not find a
    [notation.ErrorVerificationFailed] in [e], [r] wraps [e]: its message
    is ["signature verification failed: "] followed by the message of [e],
    and [Unwrap] gives [e]. When it finds one, [r] is the generic error
    naming the reference handed in, and it wraps nothing. *)
Theorem verifier_error_wrapped_or_generic (outcomes : list VerificationOutcome)
    (printOut : string) (e : error) :
  exists r,
    checkVerificationFailure outcomes printOut (Some e) = Some r
    /\ if errors_As_ErrorVerificationFailed e
       then Error r
            = "signature verification failed for all the signatures associated with "
              +:+ printOut
            /\ Unwrap r = [] /\ dynType r = errorString
       else Error r = "signature verification failed: " +:+ Error e
            /\ Unwrap r = [e] /\ dynType r = wrapError.
Proof.
  unfold checkVerificationFailure.
  rewrite bool_decide_true by discriminate. cbn [orb].
  destruct (errors_As_ErrorVerificationFailed e); cbn [negb];
    eexists; (split; [reflexivity|]); repeat split.
Qed.

Lemma elem_of_verify_calls (t : list event) (v : Verifier) (repo : Repository)
    (vo : VerifyOptions) :
  Call_Verify v repo vo ∈ t -> (v, repo, vo) ∈ verify_calls t.
Proof.
  intros Hin. unfold verify_calls. apply list_elem_of_omap.
  exists (Call_Verify v repo vo). split; [exact Hin|reflexivity].
Qed.

(** C4. When a run of [runVerify] calls the verifier and the verifier
    answers the outcomes [o :: rest] with a nil error, the run returns nil
    (no failure, whatever errors the results of [o] carry), and what it
    does after the call is the report of [o] alone: the outcomes after the
    first play no part, and the report writes to the standard error one
    warning for each result of [o] that carries an error, in order. *)
Theorem first_outcome_reported_with_warnings (W : World) (opts : verifyOpts)
    (v : Verifier) (repo : Repository) (vo : VerifyOptions)
    (o : VerificationOutcome) (rest : list VerificationOutcome) :
  Call_Verify v repo vo ∈ trace (runVerify W opts) ->
  Verify W v repo vo = (o :: rest, None) ->
  exists pre resolvedRef,
    trace (runVerify W opts)
    = (pre ++ Call_Verify v repo vo
           :: trace (reportVerificationSuccess [o] resolvedRef))%list
    /\ outcome_of (runVerify W opts) = Val tt
    /\ reportVerificationSuccess (o :: rest) resolvedRef
       = reportVerificationSuccess [o] resolvedRef
    /\ stderr_of (trace (reportVerificationSuccess [o] resolvedRef))
       = failed_warnings (VerificationResults o)
    /\ length (failed_warnings (VerificationResults o))
       = length (List.filter has_error (VerificationResults o)).
Proof.
  intros Hin Hverify.
  apply elem_of_verify_calls in Hin.
  destruct (runs_verify_calls W opts _ (runVerify_runs W opts))
    as [Hnone|(v' & configs & um & repo' & tags & resolvedRef & outcomes & err
               & _ & Hverify' & Hcalls & Hrun)].
  { rewrite Hnone in Hin. inversion Hin. }
  rewrite Hcalls in Hin. apply list_elem_of_singleton in Hin.
  injection Hin as <- <- Hvo. rewrite <- Hvo in *. clear Hvo.
  rewrite Hverify in Hverify'. injection Hverify' as <- <-.
  destruct (classify_and_report_cases (o :: rest) resolvedRef None)
    as [(e & Hc & _)|(o' & rest' & Ho & _ & Hreport)];
    [rewrite checkVerificationFailure_cons_nil in Hc; discriminate Hc|].
  injection Ho as <- <-.
  rewrite Hreport in Hrun.
  exists (calls_before_Verify opts repo tags), resolvedRef.
  rewrite !reportVerificationSuccess_cons. rewrite Hrun.
  unfold trace, outcome_of. cbn [fst snd].
  split; [reflexivity|]. split; [reflexivity|]. split; [reflexivity|].
  split; [|apply failed_warnings_length].
  unfold stderr_of. rewrite List.filter_app.
  fold (stderr_of (failed_warnings (VerificationResults o))).
  fold (stderr_of (report_tail o resolvedRef)).
  rewrite failed_warnings_stderr_of, report_tail_stderr_of.
  apply app_nil_r.
Qed.

(** C5, as amended. When [ParseFlagMap] rejects the plugin-config list,
    [runVerify] fails after the construction of the verifier and before
    anything else: no repository handle is obtained, no reference is
    resolved and the verifier is not called. The error is the parse
    error when [verifier.NewFromConfig] succeeded, and the error of
    [verifier.NewFromConfig] otherwise. *)
Theorem malformed_plugin_config_fails_early (W : World) (opts : verifyOpts)
    (pe : error) :
  ParseFlagMap (pluginConfig opts) PflagPluginConfig_Name = inr pe ->
  trace (runVerify W opts) = [Call_NewFromConfig]
  /\ List.filter is_network_call (trace (runVerify W opts)) = []
  /\ outcome_of (runVerify W opts)
     = Err (match NewFromConfig W with inl _ => pe | inr e => e end).
Proof.
  intros Hparse. unfold runVerify. rewrite Hparse.
  destruct (NewFromConfig W) as [v|e]; repeat split.
Qed.

(** C8. The bound on signature attempts is the constant [2^63 - 1], and
    every call of [runVerify] to the verifier carries it. *)
Theorem max_signature_attempts_is_max_int64 (W : World) (opts : verifyOpts) :
  maxSignatureAttempts = (2 ^ 63 - 1)%Z
  /\ Forall (fun call => MaxSignatureAttempts (snd call) = (2 ^ 63 - 1)%Z)
            (verify_calls (trace (runVerify W opts))).
Proof.
  split; [reflexivity|].
  destruct (runs_verify_calls W opts _ (runVerify_runs W opts))
    as [->|(v & configs & um & repo & tags & resolvedRef & outcomes & err
            & _ & _ & -> & _)]; repeat constructor.
Qed.

(** C9. [checkVerificationFailure] returns nil only for a non-empty
    outcome list, on which [reportVerificationSuccess] reads the first
    element without a panic; for an empty list it returns a non-nil error.
    So [runVerify] never panics: it returns nil or an error, and when the
    verifier answers no outcome it returns the error with nothing written
    to the standard output. *)
Theorem first_outcome_always_present (W : World) (opts : verifyOpts)
    (outcomes : list VerificationOutcome) (printOut : string)
    (err : option error) :
  checkVerificationFailure outcomes printOut err = None ->
  (exists o rest, outcomes = o :: rest)
  /\ outcome_of (reportVerificationSuccess outcomes printOut) = Val tt
  /\ (exists e, checkVerificationFailure [] printOut err = Some e)
  /\ (outcome_of (runVerify W opts) = Val tt
      \/ exists e, outcome_of (runVerify W opts) = Err e)
  /\ (exists e, outcome_of (runVerify (with_Verify W [] err) opts) = Err e)
  /\ stdout_of (trace (runVerify (with_Verify W [] err) opts)) = [].
Proof.
  intros Hcheck.
  apply checkVerificationFailure_None in Hcheck as (-> & o & rest & ->).
  split; [eauto|].
  split; [rewrite reportVerificationSuccess_cons; reflexivity|].
  split; [apply checkVerificationFailure_nil|].
  split; [exact (runs_no_panic W opts _ (runVerify_runs W opts))|].
  apply runVerify_empty_outcomes.
Qed.

End workflow.

(** *** The experimental gate *)
Section gate.

Lemma IsDisabled_spec (P : Process) :
  experimental.IsDisabled P
  = negb (String.eqb (os_Getenv P experimental.envName) "1").
Proof.
  unfold experimental.IsDisabled, experimental.enabled.
  destruct (String.eqb_spec (os_Getenv P experimental.envName) "1") as [->|Hne].
  - apply bool_decide_false. intros Hne. apply Hne. reflexivity.
  - apply bool_decide_true. exact Hne.
Qed.

(** C10. When NOTATION_EXPERIMENTAL is anything but the string ["1"]
    (unset reads as the empty string), [IsDisabled] returns true, and
    [CheckAndWarn] on a feature that is experimental returns an error and
    prints nothing, the warning included. In general [IsDisabled] is the
    negation of the comparison of the variable with ["1"]. *)
Theorem experimental_enabled_only_by_1 (P : Process)
    (doCheck : unit -> string * bool) :
  os_Getenv P experimental.envName <> "1" ->
  snd (doCheck tt) = true ->
  experimental.IsDisabled P = true
  /\ experimental.IsDisabled P
     = negb (String.eqb (os_Getenv P experimental.envName) "1")
  /\ exists e, experimental.CheckAndWarn P doCheck = ([], Err e)
               /\ Error e
                  = fst (doCheck tt)
                    +:+ " is experimental and not enabled by default. To use, please set NOTATION_EXPERIMENTAL=1 environment variable".
Proof.
  intros Hne Hexp.
  assert (Hdis : experimental.IsDisabled P = true)
    by (apply bool_decide_true; exact Hne).
  split; [exact Hdis|]. split; [apply IsDisabled_spec|].
  unfold experimental.CheckAndWarn.
  destruct (doCheck tt) as [feature isExperimental]. cbn [fst snd] in *.
  rewrite Hexp, Hdis. eexists. split; reflexivity.
Qed.

End gate.

(** *** Flags required together *)
Section flag_groups.
Context `{Library}.

Lemma parseFlags_changed {St} (defs : list (cobra.FlagDef St))
    (occs : list (string * string)) (st st' : St) (changed changed' : list string) :
  cobra.parseFlags defs occs st changed = inl (st', changed') ->
  changed' = (reverse (occs.*1) ++ changed)%list.
Proof.
  revert st changed. induction occs as [|[name v] occs IH]; intros st changed.
  - cbn. intros [= <- <-]. reflexivity.
  - cbn [cobra.parseFlags fmap list_fmap fst].
    destruct (cobra.lookupFlag defs name) as [d|]; [|discriminate].
    destruct (cobra.flag_set d v st) as [st1|]; [|discriminate].
    intros Hparse. apply IH in Hparse. rewrite Hparse.
    rewrite reverse_cons, <- app_assoc. reflexivity.
Qed.

Lemma groupViolated_xor (changed : string -> bool) :
  xorb (changed "oci-layout") (changed "scope") = true ->
  cobra.groupViolated changed ["oci-layout"; "scope"] = true.
Proof.
  unfold cobra.groupViolated. cbn [List.filter].
  destruct (changed "oci-layout"), (changed "scope"); cbn; congruence.
Qed.

Lemma changedFlags_xor (cmd : cobra.Command) :
  xorb (cobra.Flags_Changed cmd "oci-layout") (cobra.Flags_Changed cmd "scope")
  = true ->
  Nat.eqb (length (experimental.changedFlags cmd ["oci-layout"; "scope"])) 0
  = false.
Proof.
  unfold experimental.changedFlags. cbn [List.filter].
  destruct (cobra.Flags_Changed cmd "oci-layout"),
           (cobra.Flags_Changed cmd "scope"); cbn; congruence.
Qed.

(** The experimental check of the two flags, when exactly one of them was
    set: an error, or the warning and nothing else. *)
Lemma CheckFlagsAndWarn_xor (P : Process) (cmd : cobra.Command) :
  xorb (cobra.Flags_Changed cmd "oci-layout") (cobra.Flags_Changed cmd "scope")
  = true ->
  (exists e, experimental.CheckFlagsAndWarn P cmd ["oci-layout"; "scope"]
             = ([], Err e))
  \/ (exists s e, experimental.CheckFlagsAndWarn P cmd ["oci-layout"; "scope"]
                  = ([Stderr_write s], Err e))
  \/ (exists s, experimental.CheckFlagsAndWarn P cmd ["oci-layout"; "scope"]
                = ([Stderr_write s], Val tt)).
Proof.
  intros Hxor. unfold experimental.CheckFlagsAndWarn, experimental.CheckAndWarn.
  rewrite (changedFlags_xor cmd Hxor).
  destruct (experimental.IsDisabled P); [left; eauto|right].
  unfold experimental.warn.
  destruct (stderr_write_error P) as [e|]; [left|right]; eauto.
Qed.

(** C6. When the command line sets exactly one of the flags [--oci-layout]
    and [--scope], the run of the command ends with an error, and it calls
    no collaborator: the verifier is neither constructed nor invoked. *)
Theorem scope_and_oci_layout_required_together (W : World)
    (opts : option verifyOpts) (path : string)
    (occs : list (string * string)) (args : list string) :
  xorb (bool_decide ("oci-layout" ∈ occs.*1)) (bool_decide ("scope" ∈ occs.*1))
  = true ->
  let run := cobra.execute (fst (verifyCommand W opts)) path
                           (snd (verifyCommand W opts)) occs args in
  (exists e, outcome_of run = Err e)
  /\ List.filter is_collaborator_call (trace run) = [].
Proof.
  intros Hxor run. subst run. unfold cobra.execute.
  destruct (cobra.parseFlags (cobra.flags (verifyCommand W opts).1) occs
              (verifyCommand W opts).2 []) as [[st changed]|e] eqn:Hparse;
    [|split; [eexists|]; reflexivity].
  apply parseFlags_changed in Hparse. rewrite app_nil_r in Hparse.
  cbn [try bind ret fst snd app verifyCommand cobra.Args cobra.PreRunE
       cobra.RunE cobra.requiredTogether].
  destruct args as [|a0 args]; [split; [eexists|]; reflexivity|].
  cbn [bind ret app].
  set (cmd := {| cobra.CommandPath := path;
                 cobra.Flags_Changed := fun n => bool_decide (n ∈ changed) |}).
  assert (Hcmd : xorb (cobra.Flags_Changed cmd "oci-layout")
                      (cobra.Flags_Changed cmd "scope") = true).
  { etrans; [|exact Hxor]. subst cmd changed. cbn [cobra.Flags_Changed].
    f_equal; apply bool_decide_ext; apply elem_of_reverse. }
  destruct (CheckFlagsAndWarn_xor (process W) cmd Hcmd)
    as [(e & ->)|[(s & e & ->)|(s & ->)]];
    try (split; [eexists|]; reflexivity).
  cbn [bind ret app]. unfold cobra.validateFlagGroups.
  cbn [List.find]. rewrite (groupViolated_xor _ Hcmd).
  split; [eexists|]; reflexivity.
Qed.

End flag_groups.

(** *** The statements at sample inputs *)
Section samples.
Import Sample.

(** [errors.As] looks through the chain of wrapped errors. *)
Example errors_As_through_wrapping :
  errors_As_ErrorVerificationFailed
    (Errorf_w "verify: " (Errorf_w "all signatures: " all_failed_error)) = true
  /\ errors_As_ErrorVerificationFailed (Errorf_w "verify: " transport_error)
     = false.
Proof. split; reflexivity. Qed.

Example check_transport_error :
  checkVerificationFailure [outcome_ok] digest_ref
    (Some transport_error)
  = Some (MkError wrapError
            "signature verification failed: dial tcp: connection refused"
            [transport_error]).
Proof. reflexivity. Qed.

Example check_all_failed_error :
  checkVerificationFailure [outcome_ok] digest_ref
    (Some (Errorf_w "verify: " all_failed_error))
  = Some (errors_New
            "signature verification failed for all the signatures associated with localhost:5000/net-monitor@sha256:073b").
Proof. reflexivity. Qed.

Example report_with_metadata :
  reportVerificationSuccess (H := library) [outcome_ok] digest_ref
  = ([ Stderr_write
         ("Warning: expiry was set to " +:+ DQ +:+ "log" +:+ DQ
          +:+ " and failed with error: certificate expired" +:+ LF);
       Stdout_write
         ("Successfully verified signature for localhost:5000/net-monitor@sha256:073b"
          +:+ LF);
       Stdout_write
         (LF +:+ "The artifact was signed with the following user metadata."
          +:+ LF);
       Call_PrintMetadataMap metadata ], Val tt).
Proof. vm_compute. reflexivity. Qed.

Example report_of_no_outcome_panics :
  outcome_of (reportVerificationSuccess (H := library) [] digest_ref)
  = Panic "runtime error: index out of range [0] with length 0".
Proof. reflexivity. Qed.

Lemma skip_level_reports_skip_only_witness :
  stdout_of (trace (reportVerificationSuccess (H := library)
                      [outcome_skip; outcome_ok] digest_ref))
  = [Sprintln2 "Trust policy is configured to skip signature verification for"
               digest_ref].
Proof.
  refine (proj1 (proj2 (skip_level_reports_skip_only (H := library)
                          outcome_skip [outcome_ok] digest_ref _))).
  vm_compute. reflexivity.
Defined.

Lemma metadata_printed_after_success_witness :
  metadata_tables (trace (reportVerificationSuccess (H := library)
                            [outcome_ok] digest_ref))
  = [metadata]
  /\ metadata_tables (trace (reportVerificationSuccess (H := library)
                               [outcome_plain] digest_ref))
     = [].
Proof.
  split.
  - refine (proj2 (proj1 (metadata_printed_after_success (H := library)
                            outcome_ok [] digest_ref _) _)).
    + vm_compute. reflexivity.
    + vm_compute. discriminate.
  - refine (proj1 (proj2 (proj2 (metadata_printed_after_success (H := library)
                                   outcome_plain [] digest_ref _) _))).
    + vm_compute. reflexivity.
    + reflexivity.
Defined.

Lemma first_outcome_reported_with_warnings_witness :
  exists pre resolvedRef,
    trace (runVerify (H := library)
             (world None (inl v1) [outcome_ok; outcome_skip] None)
             (opts_with ["a=b"]))
    = (pre ++ Call_Verify v1 repo1
                (options_for (H := library) (opts_with ["a=b"])
                             {[ "a" := "b" ]} ∅ digest_ref)
           :: trace (reportVerificationSuccess (H := library) [outcome_ok]
                       resolvedRef))%list
    /\ outcome_of (runVerify (H := library)
                     (world None (inl v1) [outcome_ok; outcome_skip] None)
                     (opts_with ["a=b"])) = Val tt.
Proof.
  destruct (first_outcome_reported_with_warnings (H := library)
              (world None (inl v1) [outcome_ok; outcome_skip] None)
              (opts_with ["a=b"]) v1 repo1
              (options_for (H := library) (opts_with ["a=b"])
                           {[ "a" := "b" ]} ∅ digest_ref)
              outcome_ok [outcome_skip])
    as (pre & resolvedRef & Htrace & Hout & _).
  - vm_compute. do 3 apply list_elem_of_further. apply list_elem_of_here.
  - reflexivity.
  - exists pre, resolvedRef. split; assumption.
Defined.

Lemma malformed_plugin_config_fails_early_witness :
  trace (runVerify (H := library) (world None (inl v1) [outcome_ok] None)
                   (opts_with ["a=b"; "novalue"]))
  = [Call_NewFromConfig]
  /\ outcome_of (runVerify (H := library)
                   (world None (inl v1) [outcome_ok] None)
                   (opts_with ["a=b"; "novalue"]))
     = Err (errors_New
              "could not parse flag plugin-config: key-value pair requires = as separator").
Proof.
  destruct (malformed_plugin_config_fails_early (H := library)
              (world None (inl v1) [outcome_ok] None)
              (opts_with ["a=b"; "novalue"])
              (errors_New
                 "could not parse flag plugin-config: key-value pair requires = as separator"))
    as (Htrace & _ & Hout).
  - vm_compute. reflexivity.
  - split; assumption.
Defined.

(** C5, as stated, fails: with a malformed plugin-config entry and a
    verifier that cannot be constructed, the command still stops before
    any repository handle is obtained, but its error is the one of the
    construction, not the parse error. *)
Lemma malformed_plugin_config_not_always_parse_error :
  ~ (forall (L : Library) (W : World) (opts : verifyOpts) (pe : error),
       ParseFlagMap (pluginConfig opts) PflagPluginConfig_Name = inr pe ->
       outcome_of (runVerify W opts) = Err pe
       /\ List.filter is_network_call (trace (runVerify W opts)) = []).
Proof.
  intros Hclaim.
  destruct (Hclaim library
              (world None (inr (errors_New "trust policy is not present"))
                     [outcome_ok] None)
              (opts_with ["novalue"])
              (errors_New
                 "could not parse flag plugin-config: key-value pair requires = as separator")
              eq_refl) as [Hparse _].
  vm_compute in Hparse. discriminate Hparse.
Qed.

Lemma scope_and_oci_layout_required_together_witness :
  (exists e,
     outcome_of (cobra.execute
                   (fst (verifyCommand (H := library)
                           (world (Some "1") (inl v1) [outcome_ok] None) None))
                   "notation verify"
                   (snd (verifyCommand (H := library)
                           (world (Some "1") (inl v1) [outcome_ok] None) None))
                   [("scope", "example.com/policy")] [digest_ref]) = Err e)
  /\ (exists e,
     outcome_of (cobra.execute
                   (fst (verifyCommand (H := library)
                           (world None (inl v1) [outcome_ok] None) None))
                   "notation verify"
                   (snd (verifyCommand (H := library)
                           (world None (inl v1) [outcome_ok] None) None))
                   [("oci-layout", "true")] [digest_ref]) = Err e).
Proof.
  split.
  - refine (proj1 (scope_and_oci_layout_required_together (H := library)
                     (world (Some "1") (inl v1) [outcome_ok] None) None
                     "notation verify" [("scope", "example.com/policy")]
                     [digest_ref] _)).
    vm_compute. reflexivity.
  - refine (proj1 (scope_and_oci_layout_required_together (H := library)
                     (world None (inl v1) [outcome_ok] None) None
                     "notation verify" [("oci-layout", "true")]
                     [digest_ref] _)).
    vm_compute. reflexivity.
Defined.

Lemma first_outcome_always_present_witness :
  (exists o rest, [outcome_ok; outcome_skip] = o :: rest)
  /\ outcome_of (reportVerificationSuccess (H := library)
                   [outcome_ok; outcome_skip] digest_ref) = Val tt.
Proof.
  destruct (first_outcome_always_present (H := library)
              (world None (inl v1) [] None) (opts_with [])
              [outcome_ok; outcome_skip] digest_ref None)
    as (Hne & Hreport & _).
  - reflexivity.
  - split; assumption.
Defined.

Lemma experimental_enabled_only_by_1_witness :
  experimental.IsDisabled (process_with (Some "true")) = true
  /\ experimental.IsDisabled (process_with (Some "yes")) = true
  /\ experimental.IsDisabled (process_with (Some "0")) = true
  /\ experimental.IsDisabled (process_with None) = true.
Proof.
  assert (Hgate : forall v : option string,
             os_Getenv (process_with v) experimental.envName <> "1" ->
             experimental.IsDisabled (process_with v) = true).
  { intros v Hne.
    exact (proj1 (experimental_enabled_only_by_1 (process_with v)
                    (fun _ => ("flag(s) --scope in verify", true))
                    Hne eq_refl)). }
  split; [|split; [|split]]; apply Hgate; vm_compute; discriminate.
Defined.

(** With the variable set to ["1"] the features are enabled: the check
    prints the warning and returns nil. *)
Example experimental_enabled_by_1 :
  experimental.IsDisabled (process_with (Some "1")) = false
  /\ exists s,
       experimental.CheckAndWarn (process_with (Some "1"))
         (fun _ => ("flag(s) --scope in verify", true))
       = ([Stderr_write s], Val tt).
Proof. split; [reflexivity|eexists; reflexivity]. Qed.

(** With both flags and the experimental features enabled, the command
    runs the verification: the flag group rejects nothing then. *)
Example both_flags_accepted :
  let run :=
    cobra.execute
      (fst (verifyCommand (H := library)
              (world (Some "1") (inl v1) [outcome_plain] None) None))
      "notation verify"
      (snd (verifyCommand (H := library)
              (world (Some "1") (inl v1) [outcome_plain] None) None))
      [("oci-layout", "true"); ("scope", "example.com/policy")]
      [digest_ref] in
  verify_calls (trace run)
  = [(v1, repo1,
      {| ArtifactReference := "example.com/policy@sha256:073b";
         PluginConfig := ∅;
         MaxSignatureAttempts := 9223372036854775807;
         UserMetadata_ := ∅ |})]
  /\ exists st, outcome_of run = Val st /\ inputType_ st = inputTypeOCILayout.
Proof. split; [vm_compute; reflexivity|eexists; split; vm_compute; reflexivity]. Qed.

End samples.

(** ** Further properties *)

(** *** [checkVerificationFailure] *)
Section failure_facts.

(** X1. [checkVerificationFailure] returns nil exactly when the error of
    the verifier is nil and there is at least one outcome. *)
Theorem checkVerificationFailure_nil_iff (outcomes : list VerificationOutcome)
    (printOut : string) (err : option error) :
  checkVerificationFailure outcomes printOut err = None
  <-> err = None /\ outcomes <> [].
Proof.
  split.
  - intros Hc. apply checkVerificationFailure_None in Hc as (-> & o & rest & ->).
    split; [reflexivity|discriminate].
  - intros [-> Hne]. destruct outcomes as [|o rest]; [contradiction|].
    reflexivity.
Qed.

(** X2. Whatever failure [checkVerificationFailure] reports, its message
    starts with ["signature verification failed"]. *)
Theorem failure_message_prefix (outcomes : list VerificationOutcome)
    (printOut : string) (err : option error) (r : error) :
  checkVerificationFailure outcomes printOut err = Some r ->
  exists rest, Error r = "signature verification failed" +:+ rest.
Proof.
  unfold checkVerificationFailure.
  destruct (bool_decide (err <> None) || Nat.eqb (length outcomes) 0);
    [|discriminate].
  destruct err as [e|]; [destruct (negb _)|]; intros [= <-].
  - exists (": " +:+ Error e). reflexivity.
  - exists (" for all the signatures associated with " +:+ printOut).
    reflexivity.
  - exists (" for all the signatures associated with " +:+ printOut).
    reflexivity.
Qed.

(** X3. The error that [checkVerificationFailure] returns never matches
    [notation.ErrorVerificationFailed] under [errors.As]: an error of that
    kind is replaced by the generic one, which wraps nothing, and an error
    that is wrapped holds none of that kind. *)
Theorem failure_hides_ErrorVerificationFailed
    (outcomes : list VerificationOutcome) (printOut : string)
    (err : option error) (r : error) :
  checkVerificationFailure outcomes printOut err = Some r ->
  errors_As_ErrorVerificationFailed r = false.
Proof.
  unfold checkVerificationFailure.
  destruct (bool_decide (err <> None) || Nat.eqb (length outcomes) 0);
    [|discriminate].
  destruct err as [e|];
    [destruct (errors_As_ErrorVerificationFailed e) eqn:Has|];
    cbn [negb]; intros [= <-]; try reflexivity.
  unfold Errorf_w. cbn [errors_As_ErrorVerificationFailed
                          is_ErrorVerificationFailed orb].
  rewrite Has. reflexivity.
Qed.

End failure_facts.

Lemma checkVerificationFailure_nil_iff_witness :
  checkVerificationFailure [Sample.outcome_ok] Sample.digest_ref None = None.
Proof.
  apply (proj2 (checkVerificationFailure_nil_iff [Sample.outcome_ok]
                  Sample.digest_ref None)).
  split; [reflexivity|discriminate].
Defined.

Lemma failure_message_prefix_witness :
  exists rest,
    Error (Errorf_w "signature verification failed: " Sample.transport_error)
    = "signature verification failed" +:+ rest.
Proof.
  apply (failure_message_prefix [Sample.outcome_ok] Sample.digest_ref
           (Some Sample.transport_error)).
  reflexivity.
Defined.

Lemma failure_hides_ErrorVerificationFailed_witness :
  errors_As_ErrorVerificationFailed
    (all_signatures_failed Sample.digest_ref) = false.
Proof.
  apply (failure_hides_ErrorVerificationFailed [] Sample.digest_ref
           (Some (Errorf_w "verify: " Sample.all_failed_error))).
  reflexivity.
Defined.

(** *** The order and the arguments of the calls of [runVerify] *)
Section call_facts.
Context `{Library}.

Ltac run_cases Hrun :=
  destruct Hrun as
    [e Hinit
    |v e Hinit Hplugin
    |v configs e Hinit Hplugin Hmeta
    |v configs um e Hinit Hplugin Hmeta Hrepo
    |v configs um repo tags e Hinit Hplugin Hmeta Hrepo Hresolve
    |v configs um repo tags resolvedRef outcomes err
       Hinit Hplugin Hmeta Hrepo Hresolve Hverify].

Lemma filter_stderr_nil (f : event -> bool) (t : list event) :
  (forall s, f (Stderr_write s) = false) ->
  Forall (fun ev => is_stderr ev = true) t -> List.filter f t = [].
Proof.
  intros Hf Ht. induction Ht as [|ev t Hev _ IH]; [reflexivity|].
  destruct ev; try discriminate Hev.
  cbn [List.filter]. rewrite Hf. exact IH.
Qed.

Lemma collaborator_calls_app (t1 t2 : list event) :
  collaborator_calls (t1 ++ t2)
  = (collaborator_calls t1 ++ collaborator_calls t2)%list.
Proof. apply List.filter_app. Qed.

Lemma collaborator_calls_Verify_cons (v : Verifier) (r : Repository)
    (o : VerifyOptions) (t : list event) :
  collaborator_calls (Call_Verify v r o :: t)
  = Call_Verify v r o :: collaborator_calls t.
Proof. reflexivity. Qed.

Lemma report_tail_collaborator_calls (o : VerificationOutcome) (p : string) :
  collaborator_calls (report_tail o p) = [].
Proof.
  unfold report_tail. destruct (DeepEqual _ _); [reflexivity|].
  destruct (Nat.ltb _ _); reflexivity.
Qed.

Lemma classify_and_report_collaborator_calls
    (outcomes : list VerificationOutcome) (resolvedRef : string)
    (err : option error) :
  collaborator_calls (trace (classify_and_report outcomes resolvedRef err)) = [].
Proof.
  destruct (classify_and_report_cases outcomes resolvedRef err)
    as [(e & _ & ->)|(o & rest & _ & _ & ->)]; [reflexivity|].
  unfold trace, collaborator_calls. cbn [fst]. rewrite List.filter_app.
  rewrite (filter_stderr_nil _ _ (fun _ => eq_refl)
             (failed_warnings_all_stderr _)).
  apply report_tail_collaborator_calls.
Qed.

Lemma calls_before_Verify_collaborator_calls (opts : verifyOpts)
    (repo : Repository) (tags : list string) :
  collaborator_calls (calls_before_Verify opts repo tags)
  = [Call_NewFromConfig;
     Call_getRepository (inputType_ opts) (reference opts) (SecureFlagOpts_ opts);
     Call_resolveReference (inputType_ opts) (reference opts) repo].
Proof.
  unfold calls_before_Verify, collaborator_calls.
  rewrite List.filter_app.
  rewrite (filter_stderr_nil _ _ (fun _ => eq_refl) (tag_warnings_stderr tags)).
  reflexivity.
Qed.

(** The calls of a run, with their arguments: a prefix of the sequence
    construct, open the repository, resolve, verify. *)
Lemma runs_collaborator_calls (W : World) (opts : verifyOpts) (m : M unit) :
  runs W opts m ->
  let open :=
    Call_getRepository (inputType_ opts) (reference opts) (SecureFlagOpts_ opts) in
  let resolve := Call_resolveReference (inputType_ opts) (reference opts) in
  collaborator_calls (trace m) = [Call_NewFromConfig]
  \/ collaborator_calls (trace m) = [Call_NewFromConfig; open]
  \/ (exists repo,
        collaborator_calls (trace m) = [Call_NewFromConfig; open; resolve repo])
  \/ (exists v repo vo,
        collaborator_calls (trace m)
        = [Call_NewFromConfig; open; resolve repo; Call_Verify v repo vo]).
Proof.
  intros Hrun open resolve. subst open resolve. run_cases Hrun.
  - left. reflexivity.
  - left. reflexivity.
  - left. reflexivity.
  - right. left. reflexivity.
  - right. right. left. exists repo.
    apply calls_before_Verify_collaborator_calls.
  - right. right. right.
    exists v, repo, (options_for opts configs um resolvedRef).
    unfold trace at 1. cbn [fst].
    rewrite collaborator_calls_app, calls_before_Verify_collaborator_calls.
    rewrite collaborator_calls_Verify_cons.
    rewrite classify_and_report_collaborator_calls. reflexivity.
Qed.

(** A call to the verifier in a run: every step before it succeeded, and
    the run is the calls before it, the call, and the classification of
    its answer. *)
Lemma runs_reaching_Verify (W : World) (opts : verifyOpts) (m : M unit)
    (v0 : Verifier) (repo0 : Repository) (vo0 : VerifyOptions) :
  runs W opts m ->
  (v0, repo0, vo0) ∈ verify_calls (trace m) ->
  exists configs um tags resolvedRef outcomes err,
    NewFromConfig W = inl v0
    /\ ParseFlagMap (pluginConfig opts) PflagPluginConfig_Name = inl configs
    /\ ParseFlagMap (userMetadata opts) PflagUserMetadata_Name = inl um
    /\ getRepository W (inputType_ opts) (reference opts) (SecureFlagOpts_ opts)
       = inl repo0
    /\ resolveReference W (inputType_ opts) (reference opts) repo0
       = (tags, inl resolvedRef)
    /\ vo0 = options_for opts configs um resolvedRef
    /\ Verify W v0 repo0 vo0 = (outcomes, err)
    /\ m = ((calls_before_Verify opts repo0 tags
             ++ Call_Verify v0 repo0 vo0
                :: trace (classify_and_report outcomes resolvedRef err))%list,
            outcome_of (classify_and_report outcomes resolvedRef err)).
Proof.
  intros Hrun Hin. run_cases Hrun;
    try (cbn in Hin; inversion Hin; fail).
  - unfold trace in Hin. cbn [fst] in Hin.
    rewrite calls_before_Verify_verify_calls in Hin. inversion Hin.
  - unfold trace at 1 in Hin. cbn [fst] in Hin. unfold verify_calls in Hin.
    rewrite omap_app in Hin.
    fold (verify_calls (calls_before_Verify opts repo tags)) in Hin.
    rewrite calls_before_Verify_verify_calls in Hin.
    cbn [app omap list_omap] in Hin.
    fold (verify_calls
            (trace (classify_and_report outcomes resolvedRef err))) in Hin.
    rewrite classify_and_report_verify_calls in Hin.
    apply list_elem_of_singleton in Hin. injection Hin as -> -> ->.
    exists configs, um, tags, resolvedRef, outcomes, err.
    repeat (split; [assumption || reflexivity|]). reflexivity.
Qed.


(** X5. When [runVerify] calls the verifier, it hands it the verifier that
    [verifier.NewFromConfig] built and the repository that [getRepository]
    opened, and options made of the parsed plugin config, the parsed user
    metadata and the reference that [resolveReference] resolved, passed
    through [resolveArtifactDigestReference] with the trust-policy scope:
    the verification never runs on the reference as typed. *)
Theorem verifier_called_on_resolved_reference (W : World) (opts : verifyOpts)
    (v : Verifier) (repo : Repository) (vo : VerifyOptions) :
  Call_Verify v repo vo ∈ trace (runVerify W opts) ->
  NewFromConfig W = inl v
  /\ getRepository W (inputType_ opts) (reference opts) (SecureFlagOpts_ opts)
     = inl repo
  /\ ParseFlagMap (pluginConfig opts) PflagPluginConfig_Name
     = inl (PluginConfig vo)
  /\ ParseFlagMap (userMetadata opts) PflagUserMetadata_Name
     = inl (UserMetadata_ vo)
  /\ exists tags resolvedRef,
       resolveReference W (inputType_ opts) (reference opts) repo
       = (tags, inl resolvedRef)
       /\ ArtifactReference vo
          = resolveArtifactDigestReference resolvedRef (trustPolicyScope opts).
Proof.
  intros Hin. apply elem_of_verify_calls in Hin.
  destruct (runs_reaching_Verify W opts _ v repo vo (runVerify_runs W opts) Hin)
    as (configs & um & tags & resolvedRef & outcomes & err
        & Hinit & Hplugin & Hmeta & Hrepo & Hresolve & -> & _ & _).
  repeat (split; [assumption|]). exists tags, resolvedRef.
  split; [assumption|reflexivity].
Qed.

(** X6. The warnings about mutable tags come before the verification:
    when [runVerify] calls the verifier, what it did before is exactly the
    three earlier calls followed by one warning on the standard error for
    each reference the callback was called with, in order. *)
Theorem tag_warnings_precede_verification (W : World) (opts : verifyOpts)
    (v : Verifier) (repo : Repository) (vo : VerifyOptions) :
  Call_Verify v repo vo ∈ trace (runVerify W opts) ->
  exists tags resolvedRef rest,
    resolveReference W (inputType_ opts) (reference opts) repo
    = (tags, inl resolvedRef)
    /\ trace (runVerify W opts)
       = ([Call_NewFromConfig;
           Call_getRepository (inputType_ opts) (reference opts)
                              (SecureFlagOpts_ opts);
           Call_resolveReference (inputType_ opts) (reference opts) repo]
          ++ List.map (fun ref => Stderr_write (tag_warning_text ref)) tags
          ++ Call_Verify v repo vo :: rest)%list
    /\ verify_calls rest = [].
Proof.
  intros Hin. apply elem_of_verify_calls in Hin.
  destruct (runs_reaching_Verify W opts _ v repo vo (runVerify_runs W opts) Hin)
    as (configs & um & tags & resolvedRef & outcomes & err
        & _ & _ & _ & _ & Hresolve & _ & _ & Hrun).
  exists tags, resolvedRef,
    (trace (classify_and_report outcomes resolvedRef err)).
  split; [exact Hresolve|]. rewrite Hrun. unfold trace at 1. cbn [fst].
  split; [|apply classify_and_report_verify_calls].
  unfold calls_before_Verify, tag_warnings. rewrite <- !app_assoc.
  reflexivity.
Qed.

End call_facts.

(** *** Errors and output of [runVerify] *)
Section outcome_facts.
Context `{Library}.

Ltac run_cases' Hrun :=
  destruct Hrun as
    [e' Hinit
    |v e' Hinit Hplugin
    |v configs e' Hinit Hplugin Hmeta
    |v configs um e' Hinit Hplugin Hmeta Hrepo
    |v configs um repo tags e' Hinit Hplugin Hmeta Hrepo Hresolve
    |v configs um repo tags resolvedRef outcomes err
       Hinit Hplugin Hmeta Hrepo Hresolve Hverify].

Lemma calls_before_Verify_tables (opts : verifyOpts) (repo : Repository)
    (tags : list string) :
  metadata_tables (calls_before_Verify opts repo tags) = [].
Proof.
  unfold calls_before_Verify, metadata_tables. cbn [app omap list_omap].
  apply omap_stderr_nil; [reflexivity|apply tag_warnings_stderr].
Qed.

Lemma runs_early_error (W : World) (opts : verifyOpts) (m : M unit)
    (e : error) :
  runs W opts m ->
  outcome_of m = Err e ->
  verify_calls (trace m) = [] ->
  NewFromConfig W = inr e
  \/ ParseFlagMap (pluginConfig opts) PflagPluginConfig_Name = inr e
  \/ ParseFlagMap (userMetadata opts) PflagUserMetadata_Name = inr e
  \/ getRepository W (inputType_ opts) (reference opts) (SecureFlagOpts_ opts)
     = inr e
  \/ exists repo tags,
       getRepository W (inputType_ opts) (reference opts) (SecureFlagOpts_ opts)
       = inl repo
       /\ resolveReference W (inputType_ opts) (reference opts) repo
          = (tags, inr e).
Proof.
  intros Hrun Hout Hnone. run_cases' Hrun;
    try (injection Hout as <-).
  - left. assumption.
  - right. left. assumption.
  - right. right. left. assumption.
  - right. right. right. left. assumption.
  - right. right. right. right. eauto.
  - exfalso.
    assert (Hin : (v, repo, options_for opts configs um resolvedRef)
                  ∈ verify_calls
                      (calls_before_Verify opts repo tags
                       ++ Call_Verify v repo (options_for opts configs um resolvedRef)
                          :: trace (classify_and_report outcomes resolvedRef err))).
    { apply elem_of_verify_calls, elem_of_app. right. apply list_elem_of_here. }
    unfold trace at 1 in Hnone. cbn [fst] in Hnone.
    rewrite Hnone in Hin. inversion Hin.
Qed.

Lemma runs_error_output (W : World) (opts : verifyOpts) (m : M unit)
    (e : error) :
  runs W opts m ->
  outcome_of m = Err e ->
  stdout_of (trace m) = [] /\ metadata_tables (trace m) = [].
Proof.
  intros Hrun Hout. run_cases' Hrun; try (split; reflexivity).
  - split; [apply calls_before_Verify_stdout|apply calls_before_Verify_tables].
  - unfold outcome_of at 1 in Hout. cbn [snd] in Hout.
    destruct (classify_and_report_cases outcomes resolvedRef err)
      as [(e1 & _ & Hc)|(o & rest & _ & _ & Hc)]; rewrite Hc in *;
      [|discriminate Hout].
    unfold trace. cbn [fst].
    rewrite stdout_of_app, metadata_tables_app.
    rewrite calls_before_Verify_stdout, calls_before_Verify_tables.
    split; reflexivity.
Qed.

Lemma report_tail_stdout (o : VerificationOutcome) (p : string) :
  stdout_of (report_tail o p)
  = [Sprintln2 "Trust policy is configured to skip signature verification for" p]
  \/ exists more,
       stdout_of (report_tail o p)
       = Sprintln2 "Successfully verified signature for" p :: more.
Proof.
  unfold report_tail. destruct (DeepEqual _ _); [left; reflexivity|right].
  destruct (Nat.ltb _ _); eexists; reflexivity.
Qed.

Lemma runs_success_output (W : World) (opts : verifyOpts) (m : M unit) :
  runs W opts m ->
  outcome_of m = Val tt ->
  exists repo tags resolvedRef,
    getRepository W (inputType_ opts) (reference opts) (SecureFlagOpts_ opts)
    = inl repo
    /\ resolveReference W (inputType_ opts) (reference opts) repo
       = (tags, inl resolvedRef)
    /\ (stdout_of (trace m)
        = [Sprintln2
             "Trust policy is configured to skip signature verification for"
             resolvedRef]
        \/ exists more,
             stdout_of (trace m)
             = Sprintln2 "Successfully verified signature for" resolvedRef
               :: more).
Proof.
  intros Hrun Hout. run_cases' Hrun; try discriminate Hout.
  exists repo, tags, resolvedRef.
  split; [assumption|]. split; [assumption|].
  unfold outcome_of at 1 in Hout. cbn [snd] in Hout.
  destruct (classify_and_report_cases outcomes resolvedRef err)
    as [(e1 & _ & Hc)|(o & rest & _ & _ & Hc)]; rewrite Hc in *;
    [discriminate Hout|].
  unfold trace. cbn [fst].
  rewrite stdout_of_app, calls_before_Verify_stdout.
  cbn [app stdout_of omap list_omap].
  fold (stdout_of (failed_warnings (VerificationResults o)
                   ++ report_tail o resolvedRef)).
  rewrite stdout_of_app, failed_warnings_stdout.
  apply report_tail_stdout.
Qed.

(** X7. An error that [runVerify] returns without having called the
    verifier is, unchanged, the error of the step that failed: the
    construction of the verifier, the parsing of the plugin config or of
    the user metadata, the opening of the repository, or the resolution
    of the reference. *)
Theorem early_error_propagated_unchanged (W : World) (opts : verifyOpts)
    (e : error) :
  outcome_of (runVerify W opts) = Err e ->
  verify_calls (trace (runVerify W opts)) = [] ->
  NewFromConfig W = inr e
  \/ ParseFlagMap (pluginConfig opts) PflagPluginConfig_Name = inr e
  \/ ParseFlagMap (userMetadata opts) PflagUserMetadata_Name = inr e
  \/ getRepository W (inputType_ opts) (reference opts) (SecureFlagOpts_ opts)
     = inr e
  \/ exists repo tags,
       getRepository W (inputType_ opts) (reference opts) (SecureFlagOpts_ opts)
       = inl repo
       /\ resolveReference W (inputType_ opts) (reference opts) repo
          = (tags, inr e).
Proof. exact (runs_early_error W opts _ e (runVerify_runs W opts)). Qed.

(** X8. A run of [runVerify] that returns an error writes nothing to the
    standard output and prints no metadata table: the success line, the
    skip line and the metadata appear only when the command succeeds. *)
Theorem failure_prints_nothing_on_stdout (W : World) (opts : verifyOpts)
    (e : error) :
  outcome_of (runVerify W opts) = Err e ->
  stdout_of (trace (runVerify W opts)) = []
  /\ metadata_tables (trace (runVerify W opts)) = [].
Proof. exact (runs_error_output W opts _ e (runVerify_runs W opts)). Qed.

(** X9. A run of [runVerify] that returns nil has opened the repository
    and resolved the reference, and the first line on its standard output
    is the skip line or the success line for the resolved reference (not
    for the reference as typed); the skip line is then the only one. *)
Theorem success_names_resolved_reference (W : World) (opts : verifyOpts) :
  outcome_of (runVerify W opts) = Val tt ->
  exists repo tags resolvedRef,
    getRepository W (inputType_ opts) (reference opts) (SecureFlagOpts_ opts)
    = inl repo
    /\ resolveReference W (inputType_ opts) (reference opts) repo
       = (tags, inl resolvedRef)
    /\ (stdout_of (trace (runVerify W opts))
        = [Sprintln2
             "Trust policy is configured to skip signature verification for"
             resolvedRef]
        \/ exists more,
             stdout_of (trace (runVerify W opts))
             = Sprintln2 "Successfully verified signature for" resolvedRef
               :: more).
Proof. exact (runs_success_output W opts _ (runVerify_runs W opts)). Qed.

(** X10. When [ParseFlagMap] rejects the user-metadata list, [runVerify]
    fails after the construction of the verifier and before any other
    call. Its error is the first of: the error of the construction, the
    parse error of the plugin config, the parse error of the user
    metadata. *)
Theorem malformed_user_metadata_fails_early (W : World) (opts : verifyOpts)
    (pe : error) :
  ParseFlagMap (userMetadata opts) PflagUserMetadata_Name = inr pe ->
  trace (runVerify W opts) = [Call_NewFromConfig]
  /\ outcome_of (runVerify W opts)
     = Err (match NewFromConfig W with
            | inr e => e
            | inl _ =>
                match ParseFlagMap (pluginConfig opts) PflagPluginConfig_Name with
                | inr e => e
                | inl _ => pe
                end
            end).
Proof.
  intros Hparse. unfold runVerify. rewrite Hparse.
  destruct (NewFromConfig W) as [v|e]; [|split; reflexivity].
  destruct (ParseFlagMap (pluginConfig opts) PflagPluginConfig_Name);
    split; reflexivity.
Qed.

End outcome_facts.

(** *** The gate on experimental flags *)
Section flag_gate_facts.
Context `{Library}.

Lemma changedFlags_unused (cmd : cobra.Command) (flags : list string) :
  (forall f, f ∈ flags -> cobra.Flags_Changed cmd f = false) ->
  experimental.changedFlags cmd flags = [].
Proof.
  intros Hnone. unfold experimental.changedFlags.
  induction flags as [|f flags IH]; [reflexivity|].
  cbn [List.filter]. rewrite (Hnone f) by apply list_elem_of_here.
  apply IH. intros g Hg. apply Hnone. apply list_elem_of_further, Hg.
Qed.

Lemma changedFlags_used (cmd : cobra.Command) (flags : list string)
    (f : string) :
  f ∈ flags -> cobra.Flags_Changed cmd f = true ->
  "--" +:+ f ∈ experimental.changedFlags cmd flags.
Proof.
  intros Hin Hf. unfold experimental.changedFlags.
  apply list_elem_of_In, List.in_map, List.filter_In.
  split; [apply list_elem_of_In, Hin|exact Hf].
Qed.

Lemma changedFlags_used_length (cmd : cobra.Command) (flags : list string)
    (f : string) :
  f ∈ flags -> cobra.Flags_Changed cmd f = true ->
  Nat.eqb (length (experimental.changedFlags cmd flags)) 0 = false.
Proof.
  intros Hin Hf. pose proof (changedFlags_used cmd flags f Hin Hf) as Hc.
  destruct (experimental.changedFlags cmd flags); [inversion Hc|reflexivity].
Qed.

Lemma CheckFlagsAndWarn_disabled (P : Process) (cmd : cobra.Command)
    (flags : list string) (f : string) :
  experimental.IsDisabled P = true ->
  f ∈ flags -> cobra.Flags_Changed cmd f = true ->
  experimental.CheckFlagsAndWarn P cmd flags
  = ([], Err (experimental_error (flags_feature cmd flags))).
Proof.
  intros Hdis Hin Hf.
  unfold experimental.CheckFlagsAndWarn, experimental.CheckAndWarn.
  rewrite (changedFlags_used_length cmd flags f Hin Hf), Hdis. reflexivity.
Qed.

Lemma CheckFlagsAndWarn_enabled (P : Process) (cmd : cobra.Command)
    (flags : list string) (f : string) :
  experimental.IsDisabled P = false ->
  f ∈ flags -> cobra.Flags_Changed cmd f = true ->
  experimental.CheckFlagsAndWarn P cmd flags = experimental.warn P.
Proof.
  intros Hen Hin Hf.
  unfold experimental.CheckFlagsAndWarn, experimental.CheckAndWarn.
  rewrite (changedFlags_used_length cmd flags f Hin Hf), Hen. reflexivity.
Qed.

Lemma CheckFlagsAndWarn_unused (P : Process) (cmd : cobra.Command)
    (flags : list string) :
  (forall f, f ∈ flags -> cobra.Flags_Changed cmd f = false) ->
  experimental.CheckFlagsAndWarn P cmd flags = ([], Val tt).
Proof.
  intros Hnone. unfold experimental.CheckFlagsAndWarn, experimental.CheckAndWarn.
  rewrite (changedFlags_unused cmd flags Hnone). reflexivity.
Qed.

Lemma warn_shape (P : Process) :
  exists s,
    experimental.warn P
    = ([Stderr_write s],
       match stderr_write_error P with Some e => Err e | None => Val tt end).
Proof.
  unfold experimental.warn. destruct (stderr_write_error P);
    eexists; reflexivity.
Qed.

(** X11. When the command line sets none of the flags given to
    [CheckFlagsAndWarn], the check returns nil and prints nothing,
    whatever NOTATION_EXPERIMENTAL is: a user who stays away from the
    experimental flags never meets the gate. *)
Theorem unused_experimental_flags_pass (P : Process) (cmd : cobra.Command)
    (flags : list string) :
  (forall f, f ∈ flags -> cobra.Flags_Changed cmd f = false) ->
  experimental.CheckFlagsAndWarn P cmd flags = ([], Val tt).
Proof.
  exact (CheckFlagsAndWarn_unused P cmd flags).
Qed.

(** X12. When the experimental features are disabled and the command line
    sets one of the flags given to [CheckFlagsAndWarn], the check prints
    nothing and returns the error whose message names the changed flags
    (each with its two dashes, joined by commas, in the order of the
    flags given) and the quoted command path; the flag that was set is
    among those named. *)
Theorem disabled_flag_use_rejected (P : Process) (cmd : cobra.Command)
    (flags : list string) (f : string) :
  experimental.IsDisabled P = true ->
  f ∈ flags -> cobra.Flags_Changed cmd f = true ->
  experimental.CheckFlagsAndWarn P cmd flags
  = ([], Err (experimental_error (flags_feature cmd flags)))
  /\ ("--" +:+ f ∈ experimental.changedFlags cmd flags).
Proof.
  intros Hdis Hin Hf. split; [|exact (changedFlags_used cmd flags f Hin Hf)].
  exact (CheckFlagsAndWarn_disabled P cmd flags f Hdis Hin Hf).
Qed.

(** X13. When the experimental features are enabled and the command line
    sets one of the flags given to [CheckFlagsAndWarn], the check writes
    exactly one warning to the standard error and returns what that write
    returned: nil when the write succeeded. *)
Theorem enabled_flag_use_warns (P : Process) (cmd : cobra.Command)
    (flags : list string) (f : string) :
  experimental.IsDisabled P = false ->
  f ∈ flags -> cobra.Flags_Changed cmd f = true ->
  exists s,
    trace (experimental.CheckFlagsAndWarn P cmd flags) = [Stderr_write s]
    /\ outcome_of (experimental.CheckFlagsAndWarn P cmd flags)
       = match stderr_write_error P with
         | Some e => Err e
         | None => Val tt
         end.
Proof.
  intros Hen Hin Hf.
  rewrite (CheckFlagsAndWarn_enabled P cmd flags f Hen Hin Hf).
  destruct (warn_shape P) as [s ->]. exists s. split; reflexivity.
Qed.

(** X14. [HideFlags] and [CheckFlagsAndWarn] agree: a flag of the list
    that the command line sets is hidden from the help exactly when its
    use is rejected without a warning. *)
Theorem hidden_flags_are_the_rejected_ones (P : Process) (cmd : cobra.Command)
    (flags : list string) (f : string) :
  f ∈ flags -> cobra.Flags_Changed cmd f = true ->
  f ∈ experimental.HideFlags P flags
  <-> exists e, experimental.CheckFlagsAndWarn P cmd flags = ([], Err e).
Proof.
  intros Hin Hf. unfold experimental.HideFlags.
  destruct (experimental.IsDisabled P) eqn:Hdis.
  - split; [intros _|intros _; exact Hin].
    eexists. exact (CheckFlagsAndWarn_disabled P cmd flags f Hdis Hin Hf).
  - split; [intros Hnil; inversion Hnil|].
    intros [e He].
    rewrite (CheckFlagsAndWarn_enabled P cmd flags f Hdis Hin Hf) in He.
    destruct (warn_shape P) as [s Hs]. rewrite Hs in He. discriminate He.
Qed.

End flag_gate_facts.

(** *** The command as a whole *)
Section command_facts.
Context `{Library}.

Lemma bind_ret_l {A B} (a : A) (k : A -> M B) : bind (ret a) k = k a.
Proof. unfold bind, ret. destruct (k a). reflexivity. Qed.

Lemma bind_assoc {A B C} (m : M A) (f : A -> M B) (g : B -> M C) :
  bind (bind m f) g = bind m (fun x => bind (f x) g).
Proof.
  destruct m as [t [a|e|msg]]; try reflexivity.
  unfold bind at 2 3. destruct (f a) as [t1 [b|e|msg]]; cbn [bind];
    try reflexivity.
  destruct (g b) as [t2 r]. rewrite app_assoc. reflexivity.
Qed.

Lemma trace_bind {A B} (m : M A) (k : A -> M B) :
  trace (bind m k)
  = match outcome_of m with
    | Val a => (trace m ++ trace (k a))%list
    | _ => trace m
    end.
Proof.
  destruct m as [t [a|e|msg]]; try reflexivity.
  unfold bind, trace, outcome_of. cbn [fst snd]. destruct (k a). reflexivity.
Qed.

Lemma outcome_bind {A B} (m : M A) (k : A -> M B) :
  outcome_of (bind m k)
  = match outcome_of m with
    | Val a => outcome_of (k a)
    | Err e => Err e
    | Panic msg => Panic msg
    end.
Proof.
  destruct m as [t [a|e|msg]]; try reflexivity.
  unfold bind, trace, outcome_of. cbn [fst snd]. destruct (k a). reflexivity.
Qed.

(** The run of the command [verify], step by step. *)
Lemma execute_verifyCommand (W : World) (opts : option verifyOpts)
    (path : string) (occs : list (string * string)) (args : list string) :
  cobra.execute (verifyCommand W opts).1 path (verifyCommand W opts).2 occs args
  = match cobra.parseFlags (cobra.flags (verifyCommand W opts).1) occs
            (verifyCommand W opts).2 [] with
    | inr e => ([], Err e)
    | inl (st1, changed) =>
        match args with
        | [] => ([], Err (errors_New "missing reference"))
        | a0 :: _ =>
            let cmd := {| cobra.CommandPath := path;
                          cobra.Flags_Changed :=
                            fun n => bool_decide (n ∈ changed) |} in
            let st2 := set_reference a0 st1 in
            let st3 := if ociLayout st2
                       then set_inputType inputTypeOCILayout st2 else st2 in
            bind (experimental.CheckFlagsAndWarn (process W) cmd
                    ["oci-layout"; "scope"]) (fun _ =>
            bind (return_error
                    (cobra.validateFlagGroups cmd [["oci-layout"; "scope"]]))
                 (fun _ =>
            bind (runVerify W st3) (fun _ => ret st3)))
        end
    end.
Proof.
  unfold cobra.execute.
  destruct (cobra.parseFlags (cobra.flags (verifyCommand W opts).1) occs
              (verifyCommand W opts).2 []) as [[st1 changed]|e];
    [|reflexivity].
  cbn [try]. rewrite bind_ret_l. cbn [fst snd].
  destruct args as [|a0 args]; [reflexivity|].
  cbn [verifyCommand fst cobra.Args cobra.PreRunE cobra.RunE
       cobra.requiredTogether].
  rewrite bind_ret_l, bind_assoc. cbv zeta.
  destruct (experimental.CheckFlagsAndWarn _ _ _) as [t1 [[]|e|msg]];
    try reflexivity.
  cbn [bind]. rewrite bind_ret_l. reflexivity.
Qed.

End command_facts.

Section command_theorems.
Context `{Library}.

Lemma CheckFlagsAndWarn_stderr (P : Process) (cmd : cobra.Command)
    (flags : list string) :
  Forall (fun ev => is_stderr ev = true)
         (trace (experimental.CheckFlagsAndWarn P cmd flags)).
Proof.
  unfold experimental.CheckFlagsAndWarn, experimental.CheckAndWarn.
  destruct (Nat.eqb _ 0); [constructor|].
  destruct (experimental.IsDisabled P); [constructor|].
  destruct (warn_shape P) as [s ->]. repeat constructor.
Qed.

(** One flag occurrence of the command [verify]: the input type is kept,
    and so is [ociLayout] unless the flag is [--oci-layout]. *)
Lemma verify_flag_frame (W : World) (opts : option verifyOpts)
    (name v : string) (d : cobra.FlagDef verifyOpts) (st st' : verifyOpts) :
  cobra.lookupFlag (cobra.flags (verifyCommand W opts).1) name = Some d ->
  cobra.flag_set d v st = Some st' ->
  inputType_ st' = inputType_ st
  /\ (name <> "oci-layout" -> ociLayout st' = ociLayout st).
Proof.
  cbn [verifyCommand fst cobra.flags]. unfold cobra.lookupFlag.
  cbn [List.find cobra.flag_name cobra.StringArrayVar cobra.BoolVar
       cobra.StringVar].
  destruct (bool_decide ("plugin-config" = name));
    [intros [= <-] [= <-]; split; reflexivity|].
  destruct (bool_decide (PflagUserMetadata_Name = name));
    [intros [= <-] [= <-]; split; reflexivity|].
  destruct (bool_decide ("oci-layout" = name)) eqn:Hoci.
  - apply bool_decide_eq_true in Hoci. intros [= <-].
    cbn [cobra.flag_set cobra.BoolVar].
    destruct (cobra.ParseBool v); [|discriminate].
    intros [= <-]. split; [reflexivity|]. intros Hne. congruence.
  - destruct (bool_decide ("scope" = name)); [|discriminate].
    intros [= <-] [= <-]. split; reflexivity.
Qed.

Lemma verify_flags_frame (W : World) (opts : option verifyOpts)
    (occs : list (string * string)) (st st' : verifyOpts)
    (changed changed' : list string) :
  cobra.parseFlags (cobra.flags (verifyCommand W opts).1) occs st changed
  = inl (st', changed') ->
  inputType_ st' = inputType_ st
  /\ ("oci-layout" ∉ occs.*1 -> ociLayout st' = ociLayout st).
Proof.
  revert st changed. induction occs as [|[name v] occs IH]; intros st changed.
  - cbn. intros [= <- <-]. split; reflexivity.
  - cbn [cobra.parseFlags fmap list_fmap fst].
    destruct (cobra.lookupFlag (cobra.flags (verifyCommand W opts).1) name)
      as [d|] eqn:Hd; [|discriminate].
    destruct (cobra.flag_set d v st) as [st1|] eqn:Hset; [|discriminate].
    intros Hparse. apply IH in Hparse as [Htype Hoci].
    destruct (verify_flag_frame W opts name v d st st1 Hd Hset)
      as [Htype1 Hoci1].
    split; [congruence|].
    intros Hnot. apply not_elem_of_cons in Hnot as [Hne Hnot].
    rewrite (Hoci Hnot). apply Hoci1. congruence.
Qed.

Lemma runVerify_getRepository_event (W : World) (opts : verifyOpts)
    (t : inputType) (ref : string) (s : SecureFlagOpts) :
  Call_getRepository t ref s ∈ trace (runVerify W opts) ->
  t = inputType_ opts.
Proof.
  intros Hin.
  assert (Hcall : In (Call_getRepository t ref s)
                     (collaborator_calls (trace (runVerify W opts)))).
  { apply List.filter_In. split; [apply list_elem_of_In, Hin|reflexivity]. }
  destruct (runs_collaborator_calls W opts _ (runVerify_runs W opts))
    as [Hc|[Hc|[(repo & Hc)|(v & repo & vo & Hc)]]];
    rewrite Hc in Hcall; cbn [In] in Hcall;
    repeat (destruct Hcall as [Hcall|Hcall]);
    try discriminate Hcall; try contradiction;
    injection Hcall as <- _ _; reflexivity.
Qed.

Lemma not_in_stderr_getRepository (t1 : list event) (t : inputType)
    (ref : string) (s : SecureFlagOpts) :
  Forall (fun ev => is_stderr ev = true) t1 ->
  Call_getRepository t ref s ∉ t1.
Proof.
  intros Hall Hin. rewrite Forall_forall in Hall.
  specialize (Hall _ Hin). discriminate Hall.
Qed.

(** X15. The [PreRunE] callback of the command switches the input type to
    the OCI layout exactly when the [ociLayout] option is set, and it
    changes nothing else in the options. *)
Theorem PreRunE_only_sets_input_type (W : World) (opts : option verifyOpts)
    (cmd : cobra.Command) (args : list string) (st st' : verifyOpts)
    (t : list event) :
  cobra.PreRunE (verifyCommand W opts).1 cmd args st = (t, Val st') ->
  same_request st st'
  /\ inputType_ st'
     = (if ociLayout st then inputTypeOCILayout else inputType_ st).
Proof.
  cbn [verifyCommand fst cobra.PreRunE].
  destruct (experimental.CheckFlagsAndWarn _ _ _) as [t1 [[]|e|msg]];
    cbn [bind ret]; [|discriminate..].
  intros [= _ <-]. unfold same_request.
  destruct (ociLayout st) eqn:Hlayout;
    cbn [set_inputType LoggingFlagOpts_ SecureFlagOpts_ reference pluginConfig
         userMetadata ociLayout trustPolicyScope inputType_];
    rewrite ?Hlayout; repeat split; reflexivity.
Qed.

(** X16. Without a positional argument the command fails and does
    nothing: it prints nothing and calls no collaborator. The error is
    ["missing reference"], unless the flags themselves do not parse. The
    experimental check comes later and plays no part. *)
Theorem missing_reference_rejected (W : World) (opts : option verifyOpts)
    (path : string) (occs : list (string * string)) :
  trace (cobra.execute (verifyCommand W opts).1 path (verifyCommand W opts).2
                       occs []) = []
  /\ (outcome_of (cobra.execute (verifyCommand W opts).1 path
                                (verifyCommand W opts).2 occs [])
      = Err (errors_New "missing reference")
      \/ exists e,
           cobra.parseFlags (cobra.flags (verifyCommand W opts).1) occs
                            (verifyCommand W opts).2 [] = inr e
           /\ outcome_of (cobra.execute (verifyCommand W opts).1 path
                                        (verifyCommand W opts).2 occs [])
              = Err e).
Proof.
  rewrite execute_verifyCommand.
  destruct (cobra.parseFlags _ occs _ []) as [[st1 changed]|e].
  - split; [reflexivity|left; reflexivity].
  - split; [reflexivity|right]. exists e. split; reflexivity.
Qed.

(** X17. A command line that sets neither [--oci-layout] nor [--scope]
    runs the same whatever NOTATION_EXPERIMENTAL is: same events, same
    result. *)
Theorem gate_irrelevant_without_experimental_flags (W : World) (P : Process)
    (opts : option verifyOpts) (path : string)
    (occs : list (string * string)) (args : list string) :
  "oci-layout" ∉ occs.*1 -> "scope" ∉ occs.*1 ->
  cobra.execute (verifyCommand (with_process W P) opts).1 path
                (verifyCommand (with_process W P) opts).2 occs args
  = cobra.execute (verifyCommand W opts).1 path (verifyCommand W opts).2
                  occs args.
Proof.
  intros Hoci Hscope. rewrite !execute_verifyCommand.
  change (cobra.flags (verifyCommand (with_process W P) opts).1)
    with (cobra.flags (verifyCommand W opts).1).
  change ((verifyCommand (with_process W P) opts).2)
    with ((verifyCommand W opts).2).
  destruct (cobra.parseFlags (cobra.flags (verifyCommand W opts).1) occs
              (verifyCommand W opts).2 []) as [[st1 changed]|e] eqn:Hparse;
    [|reflexivity].
  apply parseFlags_changed in Hparse. rewrite app_nil_r in Hparse.
  destruct args as [|a0 args]; [reflexivity|]. cbv zeta.
  assert (Hunused : forall f, f ∈ ["oci-layout"; "scope"] ->
            cobra.Flags_Changed
              {| cobra.CommandPath := path;
                 cobra.Flags_Changed := fun n => bool_decide (n ∈ changed) |} f
            = false).
  { intros f Hf. cbn [cobra.Flags_Changed]. apply bool_decide_eq_false.
    subst changed. rewrite elem_of_reverse.
    apply elem_of_cons in Hf as [->|Hf]; [exact Hoci|].
    apply list_elem_of_singleton in Hf as ->. exact Hscope. }
  rewrite !(CheckFlagsAndWarn_unused _ _ _ Hunused). reflexivity.
Qed.

(** X18. Starting from the default options, the command opens a
    repository in OCI-layout mode only when the command line sets both
    [--oci-layout] and [--scope] and the experimental features are
    enabled. *)
Theorem oci_layout_mode_needs_both_flags (W : World) (path : string)
    (occs : list (string * string)) (args : list string)
    (ref : string) (s : SecureFlagOpts) :
  Call_getRepository inputTypeOCILayout ref s
  ∈ trace (cobra.execute (verifyCommand W None).1 path
                         (verifyCommand W None).2 occs args) ->
  "oci-layout" ∈ occs.*1 /\ "scope" ∈ occs.*1
  /\ experimental.IsDisabled (process W) = false.
Proof.
  rewrite execute_verifyCommand.
  destruct (cobra.parseFlags (cobra.flags (verifyCommand W None).1) occs
              (verifyCommand W None).2 []) as [[st1 changed]|e] eqn:Hparse;
    [|intros Hin; inversion Hin].
  pose proof (verify_flags_frame W None occs _ _ _ _ Hparse) as [Htype Hlayout].
  apply parseFlags_changed in Hparse. rewrite app_nil_r in Hparse.
  destruct args as [|a0 args]; [intros Hin; inversion Hin|]. cbv zeta.
  set (cmd := {| cobra.CommandPath := path;
                 cobra.Flags_Changed := fun n => bool_decide (n ∈ changed) |}).
  set (st2 := set_reference a0 st1).
  set (st3 := if ociLayout st2
              then set_inputType inputTypeOCILayout st2 else st2).
  pose proof (CheckFlagsAndWarn_stderr (process W) cmd ["oci-layout"; "scope"])
    as Hstderr.
  rewrite trace_bind.
  destruct (experimental.CheckFlagsAndWarn (process W) cmd
              ["oci-layout"; "scope"]) as [t1 [[]|e|msg]] eqn:Hcheck;
    unfold trace at 1, outcome_of at 1; cbn [fst snd];
    unfold trace in Hstderr; cbn [fst] in Hstderr;
    try (intros Hin; exact (False_ind _
           (not_in_stderr_getRepository _ _ _ _ Hstderr Hin))).
  rewrite elem_of_app. intros [Hin|Hin];
    [exact (False_ind _ (not_in_stderr_getRepository _ _ _ _ Hstderr Hin))|].
  rewrite trace_bind in Hin.
  destruct (cobra.validateFlagGroups cmd [["oci-layout"; "scope"]])
    as [e|] eqn:Hgroups;
    cbn [return_error fail ret outcome_of trace fst snd app] in Hin;
    [inversion Hin|].
  rewrite trace_bind in Hin.
  assert (Hrun : Call_getRepository inputTypeOCILayout ref s
                 ∈ trace (runVerify W st3)).
  { destruct (outcome_of (runVerify W st3)); [|exact Hin..].
    cbn [trace ret fst] in Hin. rewrite app_nil_r in Hin. exact Hin. }
  apply runVerify_getRepository_event in Hrun.
  assert (Hst1 : ociLayout st1 = true).
  { subst st3 st2. cbn [ociLayout set_reference] in Hrun.
    destruct (ociLayout st1); [reflexivity|].
    cbn [inputType_ set_reference] in Hrun. rewrite Htype in Hrun.
    discriminate Hrun. }
  assert (Hoci : "oci-layout" ∈ occs.*1).
  { destruct (decide ("oci-layout" ∈ occs.*1)) as [Hyes|Hno]; [exact Hyes|].
    rewrite (Hlayout Hno) in Hst1. discriminate Hst1. }
  assert (Hchanged : cobra.Flags_Changed cmd "oci-layout" = true).
  { subst cmd changed. cbn [cobra.Flags_Changed].
    apply bool_decide_eq_true. rewrite elem_of_reverse. exact Hoci. }
  split; [exact Hoci|]. split.
  - unfold cobra.validateFlagGroups in Hgroups. cbn [List.find] in Hgroups.
    unfold cobra.groupViolated in Hgroups. cbn [List.filter] in Hgroups.
    rewrite Hchanged in Hgroups.
    destruct (cobra.Flags_Changed cmd "scope") eqn:Hscope;
      [|cbn in Hgroups; discriminate Hgroups].
    subst cmd changed. cbn [cobra.Flags_Changed] in Hscope.
    apply bool_decide_eq_true in Hscope. rewrite elem_of_reverse in Hscope.
    exact Hscope.
  - destruct (experimental.IsDisabled (process W)) eqn:Hdis; [|reflexivity].
    rewrite (CheckFlagsAndWarn_disabled (process W) cmd _ "oci-layout" Hdis
               (list_elem_of_here _ _) Hchanged) in Hcheck.
    discriminate Hcheck.
Qed.

End command_theorems.

(** *** The further statements at sample inputs *)
Section more_samples.
Import Sample SampleRuns.

Lemma verifier_called_on_resolved_reference_witness :
  NewFromConfig (world_tag [outcome_ok] None) = inl v1
  /\ exists tags resolvedRef,
       resolveReference (world_tag [outcome_ok] None)
                        (inputType_ opts_tag) (reference opts_tag) repo1
       = (tags, inl resolvedRef)
       /\ ArtifactReference
            (options_for (H := library) opts_tag {[ "a" := "b" ]} ∅ digest_ref)
          = resolveArtifactDigestReference (Library := library) resolvedRef
              (trustPolicyScope opts_tag).
Proof.
  destruct (verifier_called_on_resolved_reference (H := library)
              (world_tag [outcome_ok] None) opts_tag v1 repo1
              (options_for (H := library) opts_tag {[ "a" := "b" ]} ∅ digest_ref))
    as (Hinit & _ & _ & _ & Hresolved).
  - vm_compute. do 4 apply list_elem_of_further. apply list_elem_of_here.
  - split; assumption.
Defined.

Lemma tag_warnings_precede_verification_witness :
  exists tags resolvedRef rest,
    resolveReference (world_tag [outcome_ok] None)
                     (inputType_ opts_tag) (reference opts_tag) repo1
    = (tags, inl resolvedRef)
    /\ trace (runVerify (H := library) (world_tag [outcome_ok] None) opts_tag)
       = ([Call_NewFromConfig;
           Call_getRepository (inputType_ opts_tag) (reference opts_tag)
                              (SecureFlagOpts_ opts_tag);
           Call_resolveReference (inputType_ opts_tag) (reference opts_tag)
                                 repo1]
          ++ List.map (fun ref => Stderr_write (tag_warning_text ref)) tags
          ++ Call_Verify v1 repo1
               (options_for (H := library) opts_tag {[ "a" := "b" ]} ∅
                            digest_ref) :: rest)%list
    /\ verify_calls rest = [].
Proof.
  apply (tag_warnings_precede_verification (H := library)
           (world_tag [outcome_ok] None) opts_tag v1 repo1
           (options_for (H := library) opts_tag {[ "a" := "b" ]} ∅ digest_ref)).
  vm_compute. do 4 apply list_elem_of_further. apply list_elem_of_here.
Defined.

Lemma early_error_propagated_unchanged_witness :
  NewFromConfig world_unreachable = inr transport_error
  \/ ParseFlagMap (Library := library) (pluginConfig (opts_with ["a=b"]))
       (PflagPluginConfig_Name (Library := library)) = inr transport_error
  \/ ParseFlagMap (Library := library) (userMetadata (opts_with ["a=b"]))
       (PflagUserMetadata_Name (Library := library)) = inr transport_error
  \/ getRepository world_unreachable (inputType_ (opts_with ["a=b"]))
       (reference (opts_with ["a=b"])) (SecureFlagOpts_ (opts_with ["a=b"]))
     = inr transport_error
  \/ exists repo tags,
       getRepository world_unreachable (inputType_ (opts_with ["a=b"]))
         (reference (opts_with ["a=b"])) (SecureFlagOpts_ (opts_with ["a=b"]))
       = inl repo
       /\ resolveReference world_unreachable (inputType_ (opts_with ["a=b"]))
            (reference (opts_with ["a=b"])) repo
          = (tags, inr transport_error).
Proof.
  apply (early_error_propagated_unchanged (H := library) world_unreachable
           (opts_with ["a=b"]) transport_error);
    vm_compute; reflexivity.
Defined.

Lemma failure_prints_nothing_on_stdout_witness :
  stdout_of (trace (runVerify (H := library)
                      (world_tag [outcome_ok] (Some transport_error)) opts_tag))
  = []
  /\ metadata_tables
       (trace (runVerify (H := library)
                 (world_tag [outcome_ok] (Some transport_error)) opts_tag))
     = [].
Proof.
  apply (failure_prints_nothing_on_stdout (H := library)
           (world_tag [outcome_ok] (Some transport_error)) opts_tag
           (Errorf_w "signature verification failed: " transport_error)).
  vm_compute. reflexivity.
Defined.

Lemma success_names_resolved_reference_witness :
  exists repo tags resolvedRef,
    getRepository (world_tag [outcome_ok] None) (inputType_ opts_tag)
      (reference opts_tag) (SecureFlagOpts_ opts_tag) = inl repo
    /\ resolveReference (world_tag [outcome_ok] None) (inputType_ opts_tag)
         (reference opts_tag) repo = (tags, inl resolvedRef)
    /\ (stdout_of (trace (runVerify (H := library)
                            (world_tag [outcome_ok] None) opts_tag))
        = [Sprintln2
             "Trust policy is configured to skip signature verification for"
             resolvedRef]
        \/ exists more,
             stdout_of (trace (runVerify (H := library)
                                 (world_tag [outcome_ok] None) opts_tag))
             = Sprintln2 "Successfully verified signature for" resolvedRef
               :: more).
Proof.
  apply (success_names_resolved_reference (H := library)
           (world_tag [outcome_ok] None) opts_tag).
  vm_compute. reflexivity.
Defined.

Lemma malformed_user_metadata_fails_early_witness :
  trace (runVerify (H := library) (world None (inl v1) [outcome_ok] None)
                   (opts_metadata ["k=v"; "novalue"]))
  = [Call_NewFromConfig].
Proof.
  refine (proj1 (malformed_user_metadata_fails_early (H := library)
                   (world None (inl v1) [outcome_ok] None)
                   (opts_metadata ["k=v"; "novalue"])
                   (errors_New
                      "could not parse flag user-metadata: key-value pair requires = as separator")
                   _)).
  vm_compute. reflexivity.
Defined.

Lemma unused_experimental_flags_pass_witness :
  experimental.CheckFlagsAndWarn (H := library) (process_with None)
    (cmd_with ["plugin-config"]) ["oci-layout"; "scope"] = ([], Val tt).
Proof.
  apply (unused_experimental_flags_pass (H := library) (process_with None)
           (cmd_with ["plugin-config"]) ["oci-layout"; "scope"]).
  intros f Hf. apply elem_of_cons in Hf as [->|Hf]; [reflexivity|].
  apply list_elem_of_singleton in Hf as ->. reflexivity.
Defined.

Lemma disabled_flag_use_rejected_witness :
  experimental.CheckFlagsAndWarn (H := library) (process_with (Some "true"))
    (cmd_with ["scope"; "oci-layout"]) ["oci-layout"; "scope"]
  = ([], Err (errors_New
                ("flag(s) --oci-layout,--scope in " +:+ DQ +:+ "notation verify"
                 +:+ DQ
                 +:+ " is experimental and not enabled by default. To use, please set NOTATION_EXPERIMENTAL=1 environment variable"))).
Proof.
  refine (eq_trans
            (proj1 (disabled_flag_use_rejected (H := library)
                      (process_with (Some "true"))
                      (cmd_with ["scope"; "oci-layout"]) ["oci-layout"; "scope"]
                      "scope" _ _ _)) _).
  - reflexivity.
  - apply list_elem_of_further, list_elem_of_here.
  - reflexivity.
  - reflexivity.
Defined.

Lemma enabled_flag_use_warns_witness :
  exists s,
    trace (experimental.CheckFlagsAndWarn (H := library)
             (process_with (Some "1")) (cmd_with ["scope"])
             ["oci-layout"; "scope"]) = [Stderr_write s]
    /\ outcome_of (experimental.CheckFlagsAndWarn (H := library)
                     (process_with (Some "1")) (cmd_with ["scope"])
                     ["oci-layout"; "scope"]) = Val tt.
Proof.
  apply (enabled_flag_use_warns (H := library) (process_with (Some "1"))
           (cmd_with ["scope"]) ["oci-layout"; "scope"] "scope").
  - reflexivity.
  - apply list_elem_of_further, list_elem_of_here.
  - reflexivity.
Defined.

Lemma hidden_flags_are_the_rejected_ones_witness :
  "scope" ∈ experimental.HideFlags (process_with None) ["oci-layout"; "scope"].
Proof.
  apply (proj2 (hidden_flags_are_the_rejected_ones (H := library)
                  (process_with None) (cmd_with ["scope"])
                  ["oci-layout"; "scope"] "scope"
                  (list_elem_of_further _ _ _ (list_elem_of_here _ _))
                  eq_refl)).
  eexists. reflexivity.
Defined.

Lemma PreRunE_only_sets_input_type_witness :
  inputType_ (set_inputType inputTypeOCILayout
                (set_ociLayout true (opts_with [])))
  = inputTypeOCILayout.
Proof.
  refine (eq_trans
            (proj2 (PreRunE_only_sets_input_type (H := library)
                      (world (Some "1") (inl v1) [outcome_ok] None) None
                      (cmd_with []) [digest_ref]
                      (set_ociLayout true (opts_with []))
                      (set_inputType inputTypeOCILayout
                         (set_ociLayout true (opts_with [])))
                      [] _)) _).
  - reflexivity.
  - reflexivity.
Defined.

Lemma gate_irrelevant_without_experimental_flags_witness :
  cobra.execute
    (verifyCommand (H := library)
       (with_process (world None (inl v1) [outcome_ok] None)
                     (process_with (Some "1"))) None).1
    "notation verify"
    (verifyCommand (H := library)
       (with_process (world None (inl v1) [outcome_ok] None)
                     (process_with (Some "1"))) None).2
    [("plugin-config", "a=b")] [digest_ref]
  = cobra.execute
      (verifyCommand (H := library) (world None (inl v1) [outcome_ok] None)
                     None).1
      "notation verify"
      (verifyCommand (H := library) (world None (inl v1) [outcome_ok] None)
                     None).2
      [("plugin-config", "a=b")] [digest_ref].
Proof.
  apply (gate_irrelevant_without_experimental_flags (H := library)
           (world None (inl v1) [outcome_ok] None) (process_with (Some "1"))
           None "notation verify" [("plugin-config", "a=b")] [digest_ref]).
  - intros Hin. apply list_elem_of_singleton in Hin. discriminate Hin.
  - intros Hin. apply list_elem_of_singleton in Hin. discriminate Hin.
Defined.

Lemma oci_layout_mode_needs_both_flags_witness :
  "oci-layout" ∈ [("oci-layout", "true"); ("scope", "example.com/policy")].*1
  /\ "scope" ∈ [("oci-layout", "true"); ("scope", "example.com/policy")].*1
  /\ experimental.IsDisabled
       (process (world (Some "1") (inl v1) [outcome_plain] None)) = false.
Proof.
  apply (oci_layout_mode_needs_both_flags (H := library)
           (world (Some "1") (inl v1) [outcome_plain] None) "notation verify"
           [("oci-layout", "true"); ("scope", "example.com/policy")]
           [digest_ref] digest_ref (secure_flag_opts 0)).
  vm_compute. do 2 apply list_elem_of_further. apply list_elem_of_here.
Defined.

End more_samples.

(** *** The gate on experimental commands *)
Section command_gate_facts.
Context `{Library}.

(** X19. [CheckCommandAndWarn] never lets an experimental command run
    silently, and it does not look at the arguments: with the features
    disabled it prints nothing and returns the error that names the
    quoted command path; with the features enabled it writes exactly one
    warning and returns what the write returned. *)
Theorem experimental_command_never_silent (P : Process) (cmd : cobra.Command)
    (args : list string) :
  (experimental.IsDisabled P = true
   /\ experimental.CheckCommandAndWarn P cmd args
      = ([], Err (experimental_error (Quote (cobra.CommandPath cmd)))))
  \/ (experimental.IsDisabled P = false
      /\ exists s,
           experimental.CheckCommandAndWarn P cmd args
           = ([Stderr_write s],
              match stderr_write_error P with
              | Some e => Err e
              | None => Val tt
              end)).
Proof.
  unfold experimental.CheckCommandAndWarn, experimental.CheckAndWarn.
  destruct (experimental.IsDisabled P); [left|right];
    (split; [reflexivity|]); [reflexivity|apply warn_shape].
Qed.

End command_gate_facts.
